(** * The note editor bridge of the mobile client (use-editor.ts)

    A shallow embedding of the [useEditor] hook of
    [apps/mobile/app/screens/editor/tiptap/use-editor.ts]: the mutable refs of
    the hook are the fields of a [World], every function of the hook is a
    computation over that world which also lists the calls it makes on its
    collaborators (the embedded editor view, the persistence module, the event
    bus), and every [await] is a point where other tasks of the UI thread may
    run. *)

From Stdlib Require Import ZArith Lia Ascii String.
From stdpp Require Import base option list gmap strings pretty.

Local Open Scope Z_scope.
Local Open Scope string_scope.
Local Open Scope list_scope.

(** ** Data *)

(** [Content] of types.ts: the editor content of a note. *)
Record Content := mkContent {
  content_data : option string;
  content_type : string;
  content_isPreview : bool
}.

(** A JavaScript string as the sequence of its UTF-16 code units, which is
    what [slice] counts.  The strings the hook only stores, passes on or
    compares as a whole are kept as [string]. *)
Definition Utf16 : Type := list N.

(** [NoteType]: a note as the persistence module hands it out.  Optional
    fields of the TypeScript type are options; [note_id] is optional because
    the item of a "new note" request has none.  The preview text
    ([headline]) is the one string the hook cuts, so it is given by its code
    units. *)
Record Note := mkNote {
  note_id : option string;
  note_title : string;
  note_headline : option Utf16;
  note_locked : bool;
  note_conflicted : bool;
  note_readonly : bool;
  note_contentId : option string;
  note_content : option Content;
  note_dateEdited : Z
}.

(** The value of the [sessionId] field of a partial update: [null], the
    payload's history token, or [undefined] when the payload had none. *)
Inductive SessionField :=
| SessNull
| SessUndefined
| SessToken (t : Z).

Definition session_field (h : option Z) : SessionField :=
  match h with
  | Some t => SessToken t
  | None => SessUndefined
  end.

(** [Partial<Note>] as [saveNote] builds it: a field that is [None] is absent
    from the object. *)
Record NoteData := mkNoteData {
  nd_id : option string;
  nd_sessionId : SessionField;
  nd_title : option string;
  nd_content : option (string * string);
  nd_contentId : option string
}.

(** [SavePayload] of types.ts. *)
Record SavePayload := mkSavePayload {
  sp_title : option string;
  sp_id : option string;
  sp_data : option string;
  sp_type : string;
  sp_sessionId : string;
  sp_sessionHistoryId : option Z
}.

(** [AppState]: the blob stored under the key "appState", once parsed. *)
Record AppState := mkAppState {
  as_editing : bool;
  as_note : option Note;
  as_timestamp : Z
}.

(** The argument of [loadNote]: a note with a request type and a flag. *)
Inductive ItemType := TypeNote | TypeNew.

Record Item := mkItem {
  item_type : ItemType;
  item_forced : bool;
  item_note : Note
}.

(** The fields of [EditorState] that the hook reads or writes;
    [onNoteCreated] records whether an observer is registered. *)
Record EditorState := mkEditorState {
  currentlyEditing : bool;
  isRestoringState : bool;
  movedAway : bool;
  ready : bool;
  onNoteCreated : bool
}.

(** The props of the hook: [editorId], [readonly], and whether an [onChange]
    observer was passed. *)
Record Props := mkProps {
  editorId : string;
  readonly : bool;
  onChange : bool
}.

Definition isDefaultEditor (p : Props) : bool := String.eqb (editorId p) "".

(** The value of [currentEditingNote] in the editor store: [null], or what
    was passed as a note id ([undefined] or a string). *)
Inductive Pointer :=
| PtrNull
| PtrUndefined
| PtrNote (id : string).

(** An optional string as such a value: [undefined] when it is absent. *)
Definition pointer_of (id : option string) : Pointer :=
  match id with
  | Some s => PtrNote s
  | None => PtrUndefined
  end.

(** Strict equality [===] on these values. *)
Definition pointer_eqb (a b : Pointer) : bool :=
  match a, b with
  | PtrNull, PtrNull => true
  | PtrUndefined, PtrUndefined => true
  | PtrNote x, PtrNote y => String.eqb x y
  | _, _ => false
  end.

(** JavaScript truthiness of an optional string: defined and not empty. *)
Definition truthy (o : option string) : bool :=
  match o with
  | Some s => negb (String.eqb s "")
  | None => false
  end.

(** [s?.slice(0, 200)] on an optional string: its first 200 code units. *)
Definition slice200 (o : option Utf16) : option Utf16 :=
  match o with
  | Some s => Some (take 200 s)
  | None => None
  end.

(** The code units of a string of ASCII characters. *)
Definition units (s : string) : Utf16 := N_of_ascii <$> list_ascii_of_string s.

(** Strict equality [===] on optional strings and on strings. *)
Definition opt_string_eqb (a b : option string) : bool :=
  match a, b with
  | Some x, Some y => String.eqb x y
  | None, None => true
  | _, _ => false
  end.

(** ** Timers

    [setTimeout] and [clearTimeout]: handles are allocated from a counter, a
    pending timer holds its handle, its deadline and its callback (as data).
    [timers.current] of the hook is [slots], from a name to the last handle
    stored under it. *)

(** The callbacks the hook hands to [setTimeout], as data: the one of
    [saveContent] (the [params] object it closed over and the [sessionId] of
    the render that created it), the one of [saveNote] (line 233), the one of
    [loadImages] (line 328) and the one of [restoreEditorState] (line 418). *)
Inductive Job :=
| JobSave (params : SavePayload) (sessionId : string)
| JobSetCurrentlyEditing (id : option string)
| JobLoadImages
| JobLoadNote (n : option Note).

Record Timer := mkTimer {
  timer_handle : nat;
  timer_deadline : Z;
  timer_job : Job
}.

Record Timers := mkTimers {
  slots : gmap string nat;
  pending : list Timer;
  next_handle : nat
}.

Definition no_timers : Timers := mkTimers ∅ [] 0%nat.

(** [clearTimeout(h)]: a handle that is undefined or no longer pending is
    ignored. *)
Definition clearTimeout (h : option nat) (tm : Timers) : Timers :=
  match h with
  | Some n =>
      mkTimers (slots tm)
        (filter (fun t => timer_handle t ≠ n) (pending tm)) (next_handle tm)
  | None => tm
  end.

(** [setTimeout(fn, duration)] at time [now]: the new handle and the timers. *)
Definition setTimeout (fn : Job) (duration now : Z) (tm : Timers) : nat * Timers :=
  (next_handle tm,
   mkTimers (slots tm)
     (pending tm ++ [mkTimer (next_handle tm) (now + duration) fn])
     (S (next_handle tm))).

(** [withTimer(id, fn, duration)], lines 138-144. *)
Definition withTimer (id : string) (fn : Job) (duration now : Z) (tm : Timers) : Timers :=
  let tm1 := clearTimeout (slots tm !! id) tm in
  let '(h, tm2) := setTimeout fn duration now tm1 in
  mkTimers (<[id := h]> (slots tm2)) (pending tm2) (next_handle tm2).

(** The callbacks the runtime runs once the clock reads [t], and the timers
    left after it ran them. *)
Definition due (t : Z) (tm : Timers) : list Job :=
  timer_job <$> filter (fun x => timer_deadline x <= t) (pending tm).

Definition expire (t : Z) (tm : Timers) : Timers :=
  mkTimers (slots tm) (filter (fun x => t < timer_deadline x) (pending tm))
    (next_handle tm).

(** Timers as [setTimeout] and [withTimer] leave them: every handle in use is
    below the next one to allocate, no two pending timers share a handle, and
    no two names of [timers.current] hold the same handle. *)
Definition timers_wf (tm : Timers) : Prop :=
  (forall t, t ∈ pending tm -> (timer_handle t < next_handle tm)%nat)
  /\ (forall k h, slots tm !! k = Some h -> (h < next_handle tm)%nat)
  /\ NoDup (timer_handle <$> pending tm)
  /\ (forall k1 k2 h, slots tm !! k1 = Some h -> slots tm !! k2 = Some h -> k1 = k2).

(** What [setTimeout] alone does to timers, any number of times: the names
    keep their handles, and the pending timers are the old ones followed by
    new ones under fresh handles. *)
Definition timers_grow (tm tm' : Timers) : Prop :=
  slots tm' = slots tm
  /\ (next_handle tm <= next_handle tm')%nat
  /\ exists l,
       pending tm' = pending tm ++ l
       /\ NoDup (timer_handle <$> l)
       /\ forall x, x ∈ l -> (next_handle tm <= timer_handle x < next_handle tm')%nat.

(** The pending timer registered under a name, if it has not fired or been
    cancelled. *)
Definition pending_for (id : string) (tm : Timers) : list Timer :=
  filter (fun t => slots tm !! id = Some (timer_handle t)) (pending tm).

(** ** Collaborators

    The persistence module ([db] of common/database) is outside this file: its
    state is an abstract [DB] and the calls the hook makes on it are the
    members of [Persistence].  A call that returns [None] threw. *)
Class Persistence := {
  DB : Type;
  (** [db.notes.note(id)?.data] *)
  notes_note : DB -> string -> option Note;
  (** [db.notes.add(noteData)]: the id it resolves to and the new state *)
  notes_add : DB -> NoteData -> option (option string * DB);
  (** [db.vault.save(noteData)] *)
  vault_save : DB -> NoteData -> option DB;
  (** [db.content.raw(contentId)] *)
  content_raw : DB -> option string -> option Content;
  (** [db.attachments.ofNote(id, "images")] *)
  attachments_ofNote : DB -> string -> list string
}.

(** The helpers imported from ./utils, ../../../utils/time, the tip manager
    and the device detection service.  [makeSessionId] and [placeholderTip]
    draw on the clock. *)
Class Helpers := {
  isContentInvalid : option string -> bool;
  makeSessionId : option Note -> Z -> string;
  timeConverter : Z -> string;
  tipManager_placeholderTip : Z -> string;
  isTab : bool
}.

(** Messages of the command channel. *)
Inductive EditorEvent := EvTitle | EvHtml | EvTitlePlaceholder.

Inductive Command :=
| SetSessionId (s : string)
| SetStatus (date label : string)
| ClearContent
| ClearTags
| SetPlaceholder (tip : string)
| SetTags (n : option Note)
| SetSettings
| Focus.

Inductive EventPayload :=
| PayloadNote (n : Note)
| PayloadNew
| PayloadUndefined
| PayloadFalse
| PayloadText (s : string).

(** What a function of the hook does to the outside, in order. *)
Inductive Effect :=
| EPost (session : string) (ev : EditorEvent) (data : option string)
| ECommand (c : Command)
| EFsCancel (id : string)
| ENotesAdd (nd : NoteData)
| EVaultSave (nd : NoteData)
| EContentRaw (cid : option string)
| ESendEvent (name : string) (payload : EventPayload)
| EQueueRoutesForUpdate (routes : list string)
| ENoteCreated (id : option string)
| ESetSessionIdState (s : string)
| EGoToPage (n : Z)
| EOnChange (html : string)
| EDownloadMedia (id : string) (c : Content)
| EDownloadImages (id : string)
| ERemoveItem (key : string)
| EConsoleLog.

(** The [await]s of the hook, by the call they wait for. *)
Inductive AwaitPoint :=
| AwClearContent | AwClearTags | AwSetPlaceholder | AwReset
| AwNotesAdd | AwVaultSave | AwSetStatus
| AwContentRaw | AwLoadContent | AwSetSessionId | AwFocus
| AwPostTitle | AwPostHtml | AwSetTags | AwGetItem.

Section Hook.

Context {persistence : Persistence} {helpers : Helpers}.

(** ** The world of one hook instance

    The refs of the hook ([sessionIdRef], [currentNote], [currentContent],
    [sessionHistoryId], [saveCount], [state], [placeholderTip], [timers]), the
    editor store, the database, the persisted app state and the clock. *)
Record World := mkWorld {
  sessionIdRef : string;
  currentNote : option Note;
  currentContent : option Content;
  sessionHistoryId : option Z;
  saveCount : Z;
  state : EditorState;
  placeholderTip : string;
  timers : Timers;
  store_readonly : bool;
  store_currentEditingNote : Pointer;
  db : DB;
  mmkv_appState : option AppState;
  now : Z
}.

Definition set_sessionIdRef (v : string) (w : World) : World :=
  mkWorld v (currentNote w) (currentContent w) (sessionHistoryId w) (saveCount w)
    (state w) (placeholderTip w) (timers w) (store_readonly w)
    (store_currentEditingNote w) (db w) (mmkv_appState w) (now w).

Definition set_currentNote (v : option Note) (w : World) : World :=
  mkWorld (sessionIdRef w) v (currentContent w) (sessionHistoryId w) (saveCount w)
    (state w) (placeholderTip w) (timers w) (store_readonly w)
    (store_currentEditingNote w) (db w) (mmkv_appState w) (now w).

Definition set_currentContent (v : option Content) (w : World) : World :=
  mkWorld (sessionIdRef w) (currentNote w) v (sessionHistoryId w) (saveCount w)
    (state w) (placeholderTip w) (timers w) (store_readonly w)
    (store_currentEditingNote w) (db w) (mmkv_appState w) (now w).

Definition set_sessionHistoryId (v : option Z) (w : World) : World :=
  mkWorld (sessionIdRef w) (currentNote w) (currentContent w) v (saveCount w)
    (state w) (placeholderTip w) (timers w) (store_readonly w)
    (store_currentEditingNote w) (db w) (mmkv_appState w) (now w).

Definition set_saveCount (v : Z) (w : World) : World :=
  mkWorld (sessionIdRef w) (currentNote w) (currentContent w) (sessionHistoryId w) v
    (state w) (placeholderTip w) (timers w) (store_readonly w)
    (store_currentEditingNote w) (db w) (mmkv_appState w) (now w).

Definition set_state (v : EditorState) (w : World) : World :=
  mkWorld (sessionIdRef w) (currentNote w) (currentContent w) (sessionHistoryId w)
    (saveCount w) v (placeholderTip w) (timers w) (store_readonly w)
    (store_currentEditingNote w) (db w) (mmkv_appState w) (now w).

Definition set_placeholderTip (v : string) (w : World) : World :=
  mkWorld (sessionIdRef w) (currentNote w) (currentContent w) (sessionHistoryId w)
    (saveCount w) (state w) v (timers w) (store_readonly w)
    (store_currentEditingNote w) (db w) (mmkv_appState w) (now w).

Definition set_timers (v : Timers) (w : World) : World :=
  mkWorld (sessionIdRef w) (currentNote w) (currentContent w) (sessionHistoryId w)
    (saveCount w) (state w) (placeholderTip w) v (store_readonly w)
    (store_currentEditingNote w) (db w) (mmkv_appState w) (now w).

(** [useEditorStore.getState().setReadonly(v)] *)
Definition setReadonly (v : bool) (w : World) : World :=
  mkWorld (sessionIdRef w) (currentNote w) (currentContent w) (sessionHistoryId w)
    (saveCount w) (state w) (placeholderTip w) (timers w) v
    (store_currentEditingNote w) (db w) (mmkv_appState w) (now w).

(** [useEditorStore.getState().setCurrentlyEditingNote(v)] *)
Definition setCurrentlyEditingNote (v : Pointer) (w : World) : World :=
  mkWorld (sessionIdRef w) (currentNote w) (currentContent w) (sessionHistoryId w)
    (saveCount w) (state w) (placeholderTip w) (timers w) (store_readonly w)
    v (db w) (mmkv_appState w) (now w).

Definition set_db (v : DB) (w : World) : World :=
  mkWorld (sessionIdRef w) (currentNote w) (currentContent w) (sessionHistoryId w)
    (saveCount w) (state w) (placeholderTip w) (timers w) (store_readonly w)
    (store_currentEditingNote w) v (mmkv_appState w) (now w).

Definition set_mmkv_appState (v : option AppState) (w : World) : World :=
  mkWorld (sessionIdRef w) (currentNote w) (currentContent w) (sessionHistoryId w)
    (saveCount w) (state w) (placeholderTip w) (timers w) (store_readonly w)
    (store_currentEditingNote w) (db w) v (now w).

Definition set_now (v : Z) (w : World) : World :=
  mkWorld (sessionIdRef w) (currentNote w) (currentContent w) (sessionHistoryId w)
    (saveCount w) (state w) (placeholderTip w) (timers w) (store_readonly w)
    (store_currentEditingNote w) (db w) (mmkv_appState w) v.

Definition set_currentlyEditing (v : bool) (s : EditorState) : EditorState :=
  mkEditorState v (isRestoringState s) (movedAway s) (ready s) (onNoteCreated s).

Definition set_isRestoringState (v : bool) (s : EditorState) : EditorState :=
  mkEditorState (currentlyEditing s) v (movedAway s) (ready s) (onNoteCreated s).

Definition set_movedAway (v : bool) (s : EditorState) : EditorState :=
  mkEditorState (currentlyEditing s) (isRestoringState s) v (ready s) (onNoteCreated s).

(** ** Computations

    A computation runs from a world to an outcome (a value, or an exception),
    the world it leaves and the effects it had. *)
Inductive Outcome (A : Type) :=
| Returned (a : A)
| Thrown.
Arguments Returned {A} a.
Arguments Thrown {A}.

Record Run (A : Type) := mkRun {
  outcome : Outcome A;
  world : World;
  effects : list Effect
}.
Arguments mkRun {A} _ _ _.
Arguments outcome {A} _.
Arguments world {A} _.
Arguments effects {A} _.

Definition M (A : Type) : Type := World -> Run A.

Definition ret {A} (a : A) : M A := fun w => mkRun (Returned a) w [].

Definition bind {A B} (m : M A) (k : A -> M B) : M B :=
  fun w =>
    match m w with
    | mkRun (Returned a) w1 l1 =>
        match k a w1 with
        | mkRun o w2 l2 => mkRun o w2 (l1 ++ l2)
        end
    | mkRun Thrown w1 l1 => mkRun Thrown w1 l1
    end.

Definition get : M World := fun w => mkRun (Returned w) w [].
Definition modify (f : World -> World) : M unit := fun w => mkRun (Returned tt) (f w) [].
Definition emit (e : Effect) : M unit := fun w => mkRun (Returned tt) w [e].
Definition throw {A} : M A := fun w => mkRun Thrown w [].
Definition when (b : bool) (m : M unit) : M unit := if b then m else ret tt.

(** [try { body } catch (e) { handler }] *)
Definition try_catch {A} (body handler : M A) : M A :=
  fun w =>
    match body w with
    | mkRun (Returned a) w1 l1 => mkRun (Returned a) w1 l1
    | mkRun Thrown w1 l1 =>
        match handler w1 with
        | mkRun o w2 l2 => mkRun o w2 (l1 ++ l2)
        end
    end.

Notation "x <- m ;; k" := (bind m (fun x => k))
  (at level 100, m at next level, right associativity).
Notation "m ;; k" := (bind m (fun _ => k))
  (at level 100, right associativity).

(** The props of this instance of the hook, and what the other tasks of the UI
    thread do to the world while a call of the hook waits at an [await]. *)
Variable props : Props.
Variable env : AwaitPoint -> World -> World.

Definition await (pt : AwaitPoint) : M unit := modify (env pt).

(** [Date.now()] *)
Definition date_now : M Z := fun w => mkRun (Returned (now w)) w [].

(** [postMessage(type, data)], lines 73-77: the message is tagged with the
    session token of the moment it is sent. *)
Definition postMessage (ev : EditorEvent) (data : option string) : M unit :=
  w <- get ;; emit (EPost (sessionIdRef w) ev data).

(** A method of [commands]. *)
Definition command (c : Command) : M unit := emit (ECommand c).

(** [setTimeout(fn, duration)] on the timers of the world. *)
Definition schedule (fn : Job) (duration : Z) : M unit :=
  modify (fun w => set_timers (snd (setTimeout fn duration (now w) (timers w))) w).

(** [overlay(show, data)], lines 104-112. *)
Definition overlay (show : bool) (data : EventPayload) : M unit :=
  w <- get ;;
  emit (ESendEvent ("loadingNote" +:+ editorId props)
          (if show
           then match currentNote w with
                | Some n => PayloadNote n
                | None => data
                end
           else PayloadFalse)).

(** ** reset, lines 146-165 *)
Definition reset (resetState : bool) : M unit :=
  w <- get ;;
  when (truthy (currentNote w ≫= note_id))
    (emit (EFsCancel (default "" (currentNote w ≫= note_id)))) ;;
  modify (set_currentNote None) ;;
  modify (set_currentContent None) ;;
  modify (set_sessionHistoryId None) ;;
  modify (set_saveCount 0) ;;
  modify (setReadonly false) ;;
  postMessage EvTitle (Some "") ;;
  command ClearContent ;; await AwClearContent ;;
  command ClearTags ;; await AwClearTags ;;
  if resetState then
    when (isDefaultEditor props) (modify (setCurrentlyEditingNote PtrNull)) ;;
    t <- date_now ;;
    modify (set_placeholderTip (tipManager_placeholderTip t)) ;;
    w' <- get ;;
    command (SetPlaceholder (placeholderTip w')) ;; await AwSetPlaceholder
  else ret tt.

(** ** saveNote, lines 167-268 *)

(** [db.notes?.note(id)?.data] guarded by [id &&] or [id ?], lines 183, 189
    and 243. *)
Definition find_note (id : option string) (w : World) : option Note :=
  match id with
  | Some i => if truthy id then notes_note (db w) i else None
  | None => None
  end.

(** The partial update of lines 200-214; [h] is [currentSessionHistoryId]. *)
Definition build_noteData (p : SavePayload) (h : option Z) : NoteData :=
  {| nd_id := sp_id p;
     nd_sessionId := if isContentInvalid (sp_data p) then SessNull else session_field h;
     nd_title := if truthy (sp_title p) then sp_title p else None;
     nd_content :=
       if truthy (sp_data p) then (fun d => (d, sp_type p)) <$> sp_data p else None;
     nd_contentId := None |}.

Definition with_contentId (c : option string) (nd : NoteData) : NoteData :=
  {| nd_id := nd_id nd; nd_sessionId := nd_sessionId nd; nd_title := nd_title nd;
     nd_content := nd_content nd; nd_contentId := c |}.

(** [await db.notes?.add(noteData)] *)
Definition call_notes_add (nd : NoteData) : M (option string) :=
  fun w =>
    match notes_add (db w) nd with
    | Some (id, d) => mkRun (Returned id) (env AwNotesAdd (set_db d w)) [ENotesAdd nd]
    | None => mkRun Thrown (env AwNotesAdd w) [ENotesAdd nd]
    end.

(** [await db.vault?.save(noteData)] *)
Definition call_vault_save (nd : NoteData) : M unit :=
  fun w =>
    match vault_save (db w) nd with
    | Some d => mkRun (Returned tt) (env AwVaultSave (set_db d w)) [EVaultSave nd]
    | None => mkRun Thrown (env AwVaultSave w) [EVaultSave nd]
    end.

(** Lines 217-236: the write of a note that is not locked; [note] is the
    record read before the write. *)
Definition save_unlocked (note : option Note) (noteData : NoteData) : M (option string) :=
  id <- call_notes_add noteData ;;
  (if negb (bool_decide (is_Some note)) && truthy id then
     w <- get ;;
     match notes_note (db w) (default "" id) with
     | Some created =>
         modify (set_currentNote (Some created)) ;;
         when (onNoteCreated (state w)) (emit (ENoteCreated id)) ;;
         when (negb (truthy (nd_title noteData)))
           (postMessage EvTitlePlaceholder (Some (note_title created)))
     | None => throw
     end
   else ret tt) ;;
  w <- get ;;
  when (negb (pointer_eqb (store_currentEditingNote w) (pointer_of id))
        && isDefaultEditor props)
    (schedule (JobSetCurrentlyEditing id) 0) ;;
  ret id.

(** Lines 238-240: the write of a locked note. *)
Definition save_locked (id : option string) (note : option Note) (noteData : NoteData)
  : M (option string) :=
  call_vault_save (with_contentId (note ≫= note_contentId) noteData) ;;
  ret id.

(** The condition of lines 246-251 on the note read back after the write. *)
Definition needs_refresh (w : World) (note : Note) : bool :=
  (saveCount w <? 2)%Z
  || negb (opt_string_eqb (note_title <$> currentNote w) (Some (note_title note)))
  || negb (bool_decide (slice200 (currentNote w ≫= note_headline)
                        = slice200 (note_headline note))).

Definition refresh_routes : list string :=
  ["ColoredNotes"; "Notes"; "TaggedNotes"; "TopicNotes"].

(** Lines 242-259: the status update and the refresh decision. *)
Definition save_finish (currentSessionId : string) (id : option string) : M unit :=
  w <- get ;;
  if truthy id && String.eqb (sessionIdRef w) currentSessionId then
    match find_note id w with
    | Some note =>
        command (SetStatus (timeConverter (note_dateEdited note)) "Saved") ;;
        await AwSetStatus ;;
        w' <- get ;;
        when (needs_refresh w' note) (emit (EQueueRoutesForUpdate refresh_routes))
    | None => throw
    end
  else ret tt.

(** Lines 183-241: up to the end of the write.  [None] when the call ends
    there ([return] of lines 187 and 191), otherwise the note id after the
    write. *)
Definition save_write (p : SavePayload) : M (option (option string)) :=
  w <- get ;;
  if truthy (sp_id p) && negb (bool_decide (is_Some (find_note (sp_id p) w))) then
    when (isDefaultEditor props) (modify (setCurrentlyEditingNote PtrNull)) ;;
    reset true ;; await AwReset ;;
    ret None
  else
    let note := find_note (sp_id p) w in
    let locked := from_option note_locked false note in
    if from_option note_conflicted false note then ret None
    else
      h <- (if isContentInvalid (sp_data p)
            then t <- date_now ;;
                 modify (set_sessionHistoryId (Some t)) ;;
                 ret (Some t)
            else ret (sp_sessionHistoryId p)) ;;
      let noteData := build_noteData p h in
      id <- (if negb locked
             then save_unlocked note noteData
             else save_locked (sp_id p) note noteData) ;;
      ret (Some id).

(** Lines 176-181: the read-only guard. *)
Definition editable (w : World) : bool :=
  negb (readonly props || store_readonly w
        || from_option note_readonly false (currentNote w)).

Definition saveNote (p : SavePayload) : M (option string) :=
  w0 <- get ;;
  if negb (editable w0) then ret None
  else
    try_catch
      (written <- save_write p ;;
       match written with
       | None => ret None
       | Some id =>
           save_finish (sp_sessionId p) id ;;
           modify (fun w => set_saveCount (saveCount w + 1) w) ;;
           ret id
       end)
      (emit EConsoleLog ;; ret None).

(** The calls of [saveNote] that get to the write of lines 216-241: the
    editor is not read-only and the note the payload names, if it names one,
    is stored and not conflicted. *)
Definition reaches_write (p : SavePayload) (w : World) : bool :=
  editable w
  && (negb (truthy (sp_id p)) || bool_decide (is_Some (find_note (sp_id p) w)))
  && negb (from_option note_conflicted false (find_note (sp_id p) w)).

(** [currentSessionHistoryId] after lines 193-198. *)
Definition history_token (p : SavePayload) (w : World) : option Z :=
  if isContentInvalid (sp_data p) then Some (now w) else sp_sessionHistoryId p.

(** What the partial-update contract of the persistence module means for a
    title: an update without a title field leaves every stored title as it
    was, through [db.notes.add] and through [db.vault.save]. *)
Definition keeps_titles : Prop :=
  (forall d nd r d' i n,
      nd_title nd = None -> notes_add d nd = Some (r, d') ->
      notes_note d i = Some n ->
      note_title <$> notes_note d' i = Some (note_title n))
  /\ (forall d nd d' i n,
      nd_title nd = None -> vault_save d nd = Some d' ->
      notes_note d i = Some n ->
      note_title <$> notes_note d' i = Some (note_title n)).

(** ** loadContent, lines 270-280 *)
Definition loadContent (note : Note) : M unit :=
  modify (set_currentNote (Some note)) ;;
  if note_locked note || bool_decide (is_Some (note_content note)) then
    modify (set_currentContent
              (Some (mkContent (note_content note ≫= content_data)
                       (match content_type <$> note_content note with
                        | Some t => if String.eqb t "" then "tiny" else t
                        | None => "tiny"
                        end)
                       false)))
  else
    w <- get ;;
    emit (EContentRaw (note_contentId note)) ;;
    await AwContentRaw ;;
    modify (set_currentContent (content_raw (db w) (note_contentId note))).

(** ** loadImages, lines 326-346: the callback of the timer, then the
    function itself. *)
Definition loadImages_callback : M unit :=
  w <- get ;;
  match currentNote w with
  | Some n =>
      if negb (truthy (note_id n)) then ret tt
      else
        match note_content n with
        | Some c =>
            if content_isPreview c
            then emit (EDownloadMedia (default "" (note_id n)) c)
            else when (bool_decide (attachments_ofNote (db w) (default "" (note_id n)) ≠ []))
                   (emit (EDownloadImages (default "" (note_id n))))
        | None =>
            when (bool_decide (attachments_ofNote (db w) (default "" (note_id n)) ≠ []))
              (emit (EDownloadImages (default "" (note_id n))))
        end
  | None => ret tt
  end.

Definition loadImages : M unit :=
  w <- get ;;
  if negb (truthy (currentNote w ≫= note_id)) then ret tt
  else schedule JobLoadImages 300.

Definition set_state_field (f : EditorState -> EditorState) : M unit :=
  modify (fun w => set_state (f (state w)) w).

(** ** loadNote, lines 282-324 *)
Definition loadNote (item : Item) : M unit :=
  set_state_field (set_currentlyEditing true) ;;
  match item_type item with
  | TypeNew =>
      w <- get ;;
      (if bool_decide (is_Some (currentNote w)) then reset true ;; await AwReset else ret tt) ;;
      t <- date_now ;;
      let nextSessionId := makeSessionId (Some (item_note item)) t in
      emit (ESetSessionIdState nextSessionId) ;;
      modify (set_sessionIdRef nextSessionId) ;;
      t' <- date_now ;;
      modify (set_sessionHistoryId (Some t')) ;;
      command (SetSessionId nextSessionId) ;; await AwSetSessionId ;;
      command Focus ;; await AwFocus ;;
      modify (setReadonly false)
  | TypeNote =>
      w <- get ;;
      if negb (item_forced item)
         && opt_string_eqb (currentNote w ≫= note_id) (note_id (item_note item))
      then ret tt
      else
        when (isDefaultEditor props)
          (modify (setCurrentlyEditingNote (pointer_of (note_id (item_note item))))) ;;
        overlay true (PayloadNote (item_note item)) ;;
        (if bool_decide (is_Some (currentNote w)) then reset false ;; await AwReset else ret tt) ;;
        loadContent (item_note item) ;; await AwLoadContent ;;
        t <- date_now ;;
        let nextSessionId := makeSessionId (Some (item_note item)) t in
        t' <- date_now ;;
        modify (set_sessionHistoryId (Some t')) ;;
        emit (ESetSessionIdState nextSessionId) ;;
        modify (set_sessionIdRef nextSessionId) ;;
        command (SetSessionId nextSessionId) ;; await AwSetSessionId ;;
        modify (set_currentNote (Some (item_note item))) ;;
        command (SetStatus (timeConverter (note_dateEdited (item_note item))) "Saved") ;;
        await AwSetStatus ;;
        postMessage EvTitle (Some (note_title (item_note item))) ;; await AwPostTitle ;;
        w1 <- get ;;
        postMessage EvHtml (currentContent w1 ≫= content_data) ;; await AwPostHtml ;;
        modify (setReadonly (note_readonly (item_note item))) ;;
        w2 <- get ;;
        command (SetTags (currentNote w2)) ;; await AwSetTags ;;
        command SetSettings ;;
        overlay false PayloadNew ;;
        loadImages
  end.

(** ** saveContent, lines 355-400 *)

(** The argument of [saveContent]; [change_isContent] is
    [type === EditorEvents.content]. *)
Record Change := mkChange {
  change_title : option string;
  change_content : option string;
  change_isContent : bool
}.

(** The [params] object of lines 371-378; [sessionId] is the state variable of
    the render that created this [saveContent]. *)
Definition make_params (sessionId : string) (c : Change) (w : World) : SavePayload :=
  {| sp_title := change_title c;
     sp_id := currentNote w ≫= note_id;
     sp_data := change_content c;
     sp_type := "tiptap";
     sp_sessionId := sessionId;
     sp_sessionHistoryId := sessionHistoryId w |}.

(** The name of the timer, line 381: [currentNote.current?.id || "newnote"]. *)
Definition timer_key (w : World) : string :=
  if truthy (currentNote w ≫= note_id) then default "" (currentNote w ≫= note_id)
  else "newnote".

Definition saveContent (sessionId : string) (c : Change) : M unit :=
  when (change_isContent c)
    (modify (set_currentContent (Some (mkContent (change_content c) "tiptap" false)))) ;;
  w <- get ;;
  modify (set_timers
            (withTimer (timer_key w) (JobSave (make_params sessionId c w) sessionId)
               500 (now w) (timers w))).

(** [params.id = id], line 388. *)
Definition with_id (id : option string) (params : SavePayload) : SavePayload :=
  {| sp_title := sp_title params;
     sp_id := id;
     sp_data := sp_data params;
     sp_type := sp_type params;
     sp_sessionId := sp_sessionId params;
     sp_sessionHistoryId := sp_sessionHistoryId params |}.

(** Lines 383-389 of the callback: the payload [saveNote] is called with.
    [sessionId] is the variable the callback closed over; [saveContent] puts
    that same variable into [params.sessionId] (line 375), so for its
    callbacks the comparison of line 386 is between two copies of one
    value. *)
Definition resolve_params (params : SavePayload) (sessionId : string) (w : World)
  : SavePayload :=
  if bool_decide (is_Some (currentNote w)) && negb (truthy (sp_id params))
     && String.eqb (sp_sessionId params) sessionId
  then with_id (currentNote w ≫= note_id) params
  else params.

(** Lines 382-395: the callback of the timer. *)
Definition saveContent_callback (params : SavePayload) (sessionId : string) : M unit :=
  w <- get ;;
  let params' := resolve_params params sessionId w in
  if onChange props && truthy (sp_data params')
  then emit (EOnChange (default "" (sp_data params')))
  else saveNote params' ;; ret tt.

(** What the runtime does when a timer fires. *)
Definition run_job (j : Job) : M unit :=
  match j with
  | JobSave params sessionId => saveContent_callback params sessionId
  | JobSetCurrentlyEditing id =>
      when (truthy id) (modify (setCurrentlyEditingNote (pointer_of id)))
  | JobLoadImages => loadImages_callback
  | JobLoadNote (Some n) => loadNote (mkItem TypeNote false n)
  | JobLoadNote None => ret tt
  end.

(** ** restoreEditorState, lines 402-433 *)

(** The condition of lines 406-411 at clock reading [t]. *)
Definition restorable (a : AppState) (t : Z) : bool :=
  as_editing a
  && negb (from_option note_locked false (as_note a))
  && truthy (as_note a ≫= note_id)
  && (t <? as_timestamp a + 3600000)%Z.

Definition restoreEditorState : M unit :=
  w <- get ;;
  let json := mmkv_appState w in
  await AwGetItem ;;
  match json with
  | Some appState =>
      t <- date_now ;;
      if restorable appState t then
        set_state_field (set_isRestoringState true) ;;
        overlay true (match as_note appState with
                      | Some n => PayloadNote n
                      | None => PayloadUndefined
                      end) ;;
        set_state_field (set_currentlyEditing true) ;;
        when (negb isTab) (emit (EGoToPage 1)) ;;
        schedule (JobLoadNote (as_note appState)) 1 ;;
        emit (ERemoveItem "appState") ;;
        modify (set_mmkv_appState None) ;;
        set_state_field (set_movedAway false) ;;
        emit (ESendEvent "load_overlay" (PayloadText "hide_editor")) ;;
        set_state_field (set_isRestoringState false)
      else set_state_field (set_isRestoringState false)
  | None => set_state_field (set_isRestoringState false)
  end.

(** ** What the other tasks may leave alone

    The refs of the hook and the editor store are written by the hook alone
    as long as no other call of the hook runs during an [await]: the other
    tasks then move the clock, the database, the timers and the persisted app
    state only. *)
Definition leaves_refs : Prop :=
  (forall pt w, sessionIdRef (env pt w) = sessionIdRef w)
  /\ (forall pt w, currentNote (env pt w) = currentNote w)
  /\ (forall pt w, currentContent (env pt w) = currentContent w)
  /\ (forall pt w, sessionHistoryId (env pt w) = sessionHistoryId w)
  /\ (forall pt w, saveCount (env pt w) = saveCount w)
  /\ (forall pt w, state (env pt w) = state w)
  /\ (forall pt w, placeholderTip (env pt w) = placeholderTip w)
  /\ (forall pt w, store_readonly (env pt w) = store_readonly w)
  /\ (forall pt w, store_currentEditingNote (env pt w) = store_currentEditingNote w).

(** The other tasks leave the database, or the timers, alone. *)
Definition leaves_db : Prop := forall pt w, db (env pt w) = db w.
Definition leaves_timers : Prop := forall pt w, timers (env pt w) = timers w.

(** The other tasks may start timers of their own while a call waits, but
    they cancel none, fire none and call no [withTimer]. *)
Definition only_starts_timers : Prop :=
  forall pt w, timers_grow (timers w) (timers (env pt w)).

End Hook.

Arguments Returned {A} a.
Arguments Thrown {A}.
Arguments mkRun {persistence A} _ _ _.
Arguments outcome {persistence A} _.
Arguments world {persistence A} _.
Arguments effects {persistence A} _.

(** ** Reading the effects of a run *)

Definition is_status (e : Effect) : bool :=
  match e with
  | ECommand (SetStatus _ _) => true
  | _ => false
  end.

Definition is_refresh (e : Effect) : bool :=
  match e with
  | EQueueRoutesForUpdate _ => true
  | _ => false
  end.

(** Whether [commands.setStatus] was called, and whether
    [Navigation.queueRoutesForUpdate] was. *)
Definition status_sent (l : list Effect) : bool := existsb is_status l.
Definition refresh_sent (l : list Effect) : bool := existsb is_refresh l.

(** The partial updates handed to [db.notes.add], to [db.vault.save], and to
    either of them. *)
Definition added (l : list Effect) : list NoteData :=
  omap (fun e => match e with ENotesAdd nd => Some nd | _ => None end) l.

Definition vault_saved (l : list Effect) : list NoteData :=
  omap (fun e => match e with EVaultSave nd => Some nd | _ => None end) l.

Definition written (l : list Effect) : list NoteData :=
  omap (fun e => match e with
                 | ENotesAdd nd | EVaultSave nd => Some nd
                 | _ => None
                 end) l.

(** The ids [state.current.onNoteCreated] was called with, and whether an
    error was logged. *)
Definition created_ids (l : list Effect) : list (option string) :=
  omap (fun e => match e with ENoteCreated id => Some id | _ => None end) l.

Definition is_log (e : Effect) : bool :=
  match e with
  | EConsoleLog => true
  | _ => false
  end.

Definition logged (l : list Effect) : bool := existsb is_log l.

(** The messages posted to the editor view, with the session token each is
    tagged with. *)
Definition posted (l : list Effect) : list (string * EditorEvent * option string) :=
  omap (fun e => match e with EPost s ev d => Some (s, ev, d) | _ => None end) l.

(** The commands sent to the editor view. *)
Definition commands_sent (l : list Effect) : list Command :=
  omap (fun e => match e with ECommand c => Some c | _ => None end) l.

(** The note ids [db.fs.cancel] was called with. *)
Definition cancelled (l : list Effect) : list string :=
  omap (fun e => match e with EFsCancel id => Some id | _ => None end) l.

(** ** Content changes over time

    The runtime around content-change notifications.  When the clock reads
    [t] the runtime takes the timers that are due off the pending ones and
    runs their callbacks, in the order the timers were started; then the
    editor view reports a change and [saveContent] runs on the world the
    callbacks left. *)
Section Timeline.

Context {persistence : Persistence} {helpers : Helpers}.
Variable props : Props.
Variable env : AwaitPoint -> World -> World.

Fixpoint run_jobs (js : list Job) (w : World) : World :=
  match js with
  | [] => w
  | j :: rest => run_jobs rest (world (run_job props env j w))
  end.

(** The timers that fire when the clock reads [t], and the world their
    callbacks leave. *)
Definition fire (t : Z) (w : World) : list Timer * World :=
  let w1 := set_now t w in
  (filter (fun x => timer_deadline x <= t) (pending (timers w1)),
   run_jobs (due t (timers w1)) (set_timers (expire t (timers w1)) w1)).

(** One notification at clock reading [t]: the timers that fired before it,
    the world it found, and the world [saveContent] left. *)
Definition notify (sessionId : string) (t : Z) (c : Change) (w : World)
  : (list Timer * World) * World :=
  let '(fired, w1) := fire t w in
  ((fired, w1), world (saveContent sessionId c w1)).

(** A run of notifications: for each one the timers that fired before it and
    the world it found, and the world after the last. *)
Fixpoint feed (sessionId : string) (evs : list (Z * Change)) (w : World)
  : list (list Timer * World) * World :=
  match evs with
  | [] => ([], w)
  | (t, c) :: rest =>
      let '(entry, w1) := notify sessionId t c w in
      let '(log, w2) := feed sessionId rest w1 in
      (entry :: log, w2)
  end.

(** The timers that fired during a run, and the handles of the timers its
    notifications started: [saveContent] starts its timer under the next
    handle of the world it finds. *)
Definition fired_in (log : list (list Timer * World)) : list Timer :=
  concat (fst <$> log).

Definition started_in (log : list (list Timer * World)) : list nat :=
  (fun e => next_handle (timers (snd e))) <$> log.

(** The timer [saveContent] starts for change [c] when it finds world [w]. *)
Definition started_timer (sessionId : string) (c : Change) (w : World) : Timer :=
  mkTimer (next_handle (timers w)) (now w + 500)
    (JobSave (make_params sessionId c w) sessionId).

(** The notifications [evs], run from [w], are all against note key [k], and
    each comes within the quiet period of the one before it: the runtime
    delivers it before the clock reads [d], the deadline of the timer the
    one before it started ([None] for the first of them). *)
Fixpoint quiet_run (sessionId k : string) (d : option Z) (evs : list (Z * Change))
    (w : World) : Prop :=
  match evs with
  | [] => True
  | (t, c) :: rest =>
      from_option (fun d' => t < d') True d
      /\ timer_key (snd (fire t w)) = k
      /\ quiet_run sessionId k (Some (now (snd (fire t w)) + 500)) rest
           (snd (notify sessionId t c w))
  end.

End Timeline.

(** ** A persistence module to run the hook on *)

Module Sample.

(** The state of the sample persistence module: the notes by id, the content
    blobs by content id, and how many notes it created. *)
Record Store := mkStore {
  notes : gmap string Note;
  contents : gmap string Content;
  created : nat
}.

Definition fresh_id (d : Store) : string := "note" +:+ pretty (created d).

(** Modelled from the spec: upsert-note(partial) of the external persistence
    module ([db.notes.add], not under src/).  A field absent from the partial
    update keeps its stored value; a partial update without an id creates a
    note under a fresh id; the preview text (headline) is taken from the
    content. *)
Definition upsert (d : Store) (nd : NoteData) : option (option string * Store) :=
  let id := if truthy (nd_id nd) then default "" (nd_id nd) else fresh_id d in
  let old := notes d !! id in
  let cid := default ("content_" +:+ id) (old ≫= note_contentId) in
  let n :=
    mkNote (Some id)
      (default (from_option note_title "Untitled" old) (nd_title nd))
      (match nd_content nd with
       | Some (data, _) => Some (units data)
       | None => old ≫= note_headline
       end)
      (from_option note_locked false old)
      (from_option note_conflicted false old)
      (from_option note_readonly false old)
      (Some cid)
      None
      (from_option note_dateEdited 0 old + 1) in
  Some (Some id,
        mkStore (<[id := n]> (notes d))
          (match nd_content nd with
           | Some (data, ty) => <[cid := mkContent (Some data) ty false]> (contents d)
           | None => contents d
           end)
          (if truthy (nd_id nd) then created d else S (created d))).

(** Modelled from the spec: vault-save(partial) of the external vault module
    ([db.vault.save], not under src/).  It throws unless the note exists and
    is locked; it keeps the content identifier of the stored note. *)
Definition vaultSave (d : Store) (nd : NoteData) : option Store :=
  match nd_id nd ≫= (fun id => notes d !! id) with
  | Some old =>
      if note_locked old then
        Some (mkStore
                (<[default "" (nd_id nd) :=
                     mkNote (note_id old) (default (note_title old) (nd_title nd))
                       (note_headline old) true (note_conflicted old)
                       (note_readonly old) (note_contentId old) (note_content old)
                       (note_dateEdited old + 1)]> (notes d))
                (contents d) (created d))
      else None
  | None => None
  end.

Definition sample_persistence : Persistence :=
  {| DB := Store;
     notes_note := fun d id => notes d !! id;
     notes_add := upsert;
     vault_save := vaultSave;
     content_raw := fun d cid => cid ≫= (fun c => contents d !! c);
     attachments_ofNote := fun _ _ => [] |}.

(** Modelled from the spec: the helpers of ./utils, which are not under src/.
    Content is invalid if it is empty or equals the empty-document marker; a
    session token is derived from the note identity and the load time. *)
Definition sample_helpers : Helpers :=
  {| isContentInvalid := fun data =>
       negb (truthy data) || opt_string_eqb data (Some "<p></p>");
     makeSessionId := fun n t =>
       default "" (n ≫= note_id) +:+ "_session_" +:+ pretty t;
     timeConverter := fun t => pretty t;
     tipManager_placeholderTip := fun _ => "Start writing your note";
     isTab := false |}.

#[local] Existing Instance sample_persistence.
#[local] Existing Instance sample_helpers.

(** Worlds, props and interference to run the hook on. *)
Abbreviation SWorld := (@World sample_persistence).

Definition note_a : Note :=
  mkNote (Some "a") "Alpha" (Some (units "alpha text")) false false false (Some "ca")
    None 10.
Definition note_b : Note :=
  mkNote (Some "b") "Beta" (Some (units "beta text")) false false false (Some "cb")
    None 20.
Definition note_v : Note :=
  mkNote (Some "v") "Vault" None true false false (Some "cv") None 30.
Definition note_x : Note :=
  mkNote (Some "x") "Clash" None false true false (Some "cx") None 40.

Definition store0 : Store :=
  mkStore (list_to_map [("a", note_a); ("b", note_b); ("v", note_v); ("x", note_x)])
    ∅ 0.

Definition state0 : EditorState := mkEditorState false false false true false.

(** The world with note [n] loaded under session token [session], the clock
    at 5000. *)
Definition world_on (n : option Note) (session : string) : SWorld :=
  @mkWorld sample_persistence session n None (Some 1000) 0 state0 "tip" no_timers
    false (from_option (fun x => pointer_of (note_id x)) PtrNull n) store0 None 5000.

Definition props_default : Props := mkProps "" false false.
Definition props_preview : Props := mkProps "preview" false true.

(** No other task runs during an [await]. *)
Definition env_quiet : AwaitPoint -> SWorld -> SWorld := fun _ w => w.

(** Only the clock moves during an [await]. *)
Definition env_clock : AwaitPoint -> SWorld -> SWorld :=
  fun _ w => set_now (now w + 1) w.

(** While a write is awaited the user opens note [note_b]: a new session
    token and a new current note. *)
Definition env_switch : AwaitPoint -> SWorld -> SWorld :=
  fun pt w =>
    match pt with
    | AwNotesAdd | AwVaultSave =>
        set_sessionIdRef "b_session" (set_currentNote (Some note_b) w)
    | _ => w
    end.

(** A payload for note [id] captured under session token [session]. *)
Definition payload (title id data : option string) (session : string) : SavePayload :=
  mkSavePayload title id data "tiptap" session (Some 1000).

(** Note a open under session token a_session, and saves into it: one that
    renames it, one of the empty-document marker, one with the empty string
    for a title. *)
Definition world_a : SWorld := world_on (Some note_a) "a_session".
Definition rename_a : SavePayload :=
  payload (Some "Alpha 2") (Some "a") (Some "<p>x</p>") "a_session".
Definition empty_a : SavePayload :=
  payload None (Some "a") (Some "<p></p>") "a_session".
Definition untitled_a : SavePayload :=
  payload (Some "") (Some "a") (Some "<p>body</p>") "a_session".

(** Note a as the sample persistence module stores it after [rename_a]. *)
Definition note_a_renamed : Note :=
  mkNote (Some "a") "Alpha 2" (Some (units "<p>x</p>")) false false false (Some "ca")
    None 11.

(** A save into the locked note v, and the request to open note a. *)
Definition save_v : SavePayload :=
  payload (Some "Vault 2") (Some "v") (Some "<p>secret</p>") "v_session".
Definition open_a : Item := mkItem TypeNote false note_a.

(** A content change as the editor view reports it. *)
Definition typed (content : string) : Change := mkChange None (Some content) true.

(** Note a just opened from an empty editor, the clock at -200: the timer of
    [loadImages] is pending, due at 100. *)
Definition world_opened_a : SWorld :=
  world (loadNote props_default env_quiet open_a
           (set_now (-200) (world_on None "session"))).

(** Four keystrokes in note a, at 0, 100, 200 and 490, under the session
    token the open gave. *)
Definition keystrokes_after_first : list (Z * Change) :=
  [(100, typed "<p>ab</p>"); (200, typed "<p>abc</p>"); (490, typed "<p>abcd</p>")].

Definition keystrokes : list (Z * Change) :=
  (0, typed "<p>a</p>") :: keystrokes_after_first.

Definition world_after_keystrokes : SWorld :=
  snd (feed props_default env_quiet (sessionIdRef world_opened_a) keystrokes
         world_opened_a).

(** The callback of the last keystroke: the current note and the history
    token it captured are those of the open. *)
Definition last_keystroke : Job :=
  JobSave (make_params (sessionIdRef world_opened_a) (typed "<p>abcd</p>") world_opened_a)
    (sessionIdRef world_opened_a).

(** The world when the clock reads 990 and the callback that is due runs. *)
Definition world_at_990 : SWorld :=
  set_timers (expire 990 (timers world_after_keystrokes))
    (set_now 990 world_after_keystrokes).

(** The payload of a change typed into note a under session token
    a_session. *)
Definition params_typed_in_a : SavePayload :=
  make_params "a_session" (typed "<p>typed in a</p>") (world_on (Some note_a) "a_session").

(** A save that names a note the store does not have, and the first save of
    a new note, typed with no note open under session token new_session. *)
Definition gone_a : SavePayload :=
  payload (Some "Gone") (Some "gone") (Some "<p>x</p>") "a_session".
Definition new_draft : SavePayload :=
  payload None None (Some "<p>draft</p>") "new_session".
Definition world_new : SWorld := world_on None "new_session".

(** While a write is awaited another task empties the database. *)
Definition env_wipe : AwaitPoint -> SWorld -> SWorld :=
  fun pt w =>
    match pt with
    | AwNotesAdd => @set_db sample_persistence (mkStore ∅ ∅ 0) w
    | _ => w
    end.

(** Note b open, with the save of a change typed into note a still pending. *)
Definition world_b_pending_a : SWorld :=
  set_timers (withTimer "a" (JobSave params_typed_in_a "a_session") 500 0 no_timers)
    (world_on (Some note_b) "b_session").

(** The requests to open a new note and to open note b, and the blob stored
    when the app went to the background with note b open. *)
Definition open_new : Item :=
  mkItem TypeNew false (mkNote None "" None false false false None None 0).
Definition open_b : Item := mkItem TypeNote false note_b.
Definition blob_b : AppState := mkAppState true (Some note_b) 4000.

(** A draft typed into a new note, with no note open, under session token
    new_session: its payload carries no note id. *)
Definition draft_typed : SavePayload :=
  make_params "new_session" (typed "<p>draft 2</p>") world_new.

(** Modelled from the spec: a persistence module whose upsert resolves to no
    id, which is what [db.notes?.add] gives when [db.notes] is not there;
    nothing is stored. *)
Definition mute_persistence : Persistence :=
  {| DB := Store;
     notes_note := fun d id => notes d !! id;
     notes_add := fun d _ => Some (None, d);
     vault_save := vaultSave;
     content_raw := fun d cid => cid ≫= (fun c => contents d !! c);
     attachments_ofNote := fun _ _ => [] |}.

Definition mute_world : @World mute_persistence :=
  @mkWorld mute_persistence "new_session" None None (Some 1000) 0 state0 "tip" no_timers
    false PtrNull store0 None 5000.

Definition mute_env : AwaitPoint -> @World mute_persistence -> @World mute_persistence :=
  fun _ w => w.

End Sample.

(** * Properties of the hook *)

(** ** Symbolic execution of a computation *)

Lemma bool_decide_is_Some {A} (o : option A) :
  bool_decide (is_Some o) = match o with Some _ => true | None => false end.
Proof.
  destruct o; [apply bool_decide_eq_true | apply bool_decide_eq_false].
  - eauto.
  - intros [x Hx]. discriminate.
Qed.

(** Unfold the steps of a computation and run those that are determined. *)
Ltac run :=
  unfold bind, get, modify, emit, ret, when, await, throw, command, postMessage,
    date_now, schedule, try_catch, set_state_field; simpl.

(** Split on a condition the run is stuck on: the test of an [if], or what a
    [match] looks at (never a run itself). *)
Ltac split_cond :=
  match goal with
  | |- context [if ?c then _ else _] => destruct c eqn:?
  | |- context [match ?x with _ => _ end] =>
      lazymatch type of x with
      | Run _ => fail
      | _ => destruct x eqn:?
      end
  end.

(** Run a computation along all of its paths. *)
Ltac exec := run; repeat (split_cond; simpl; try discriminate).

(** Lay [saveNote] open, down to the calls on the persistence module. *)
Ltac unfold_save :=
  unfold saveNote, reaches_write, history_token, save_write, save_finish, save_unlocked,
    save_locked, call_notes_add, call_vault_save, reset;
  run; rewrite ?bool_decide_is_Some.

Section Properties.

Context {persistence : Persistence} {helpers : Helpers}.
Variable props : Props.
Variable env : AwaitPoint -> World -> World.

(** ** Running computations *)

Lemma status_sent_app l1 l2 :
  status_sent (l1 ++ l2) = status_sent l1 || status_sent l2.
Proof. apply existsb_app. Qed.

Lemma refresh_sent_app l1 l2 :
  refresh_sent (l1 ++ l2) = refresh_sent l1 || refresh_sent l2.
Proof. apply existsb_app. Qed.

Lemma written_app l1 l2 : written (l1 ++ l2) = written l1 ++ written l2.
Proof. apply omap_app. Qed.

Lemma added_app l1 l2 : added (l1 ++ l2) = added l1 ++ added l2.
Proof. apply omap_app. Qed.

Lemma vault_saved_app l1 l2 : vault_saved (l1 ++ l2) = vault_saved l1 ++ vault_saved l2.
Proof. apply omap_app. Qed.

(** ** Timers *)

Lemma filter_agree {A} (P Q : A -> Prop) `{!forall x, Decision (P x)}
    `{!forall x, Decision (Q x)} (l : list A) :
  (forall x, x ∈ l -> P x <-> Q x) -> filter P l = filter Q l.
Proof.
  induction l as [| a l IH]; intros Hall; [reflexivity |].
  rewrite !filter_cons.
  rewrite IH by (intros x Hx; apply Hall; now right).
  pose proof (Hall a ltac:(now left)) as Ha.
  destruct (decide (P a)) as [Hp | Hp], (decide (Q a)) as [Hq | Hq];
    try reflexivity; tauto.
Qed.

Lemma filter_nothing {A} (P : A -> Prop) `{!forall x, Decision (P x)} (l : list A) :
  (forall x, x ∈ l -> ~ P x) -> filter P l = [].
Proof.
  induction l as [| a l IH]; intros Hall; [reflexivity |].
  rewrite filter_cons.
  destruct (decide (P a)) as [Hp | Hp].
  - exfalso. apply (Hall a); [now left | exact Hp].
  - apply IH. intros x Hx. apply Hall. now right.
Qed.

Lemma clearTimeout_pending h tm t :
  t ∈ pending (clearTimeout h tm) -> t ∈ pending tm.
Proof.
  destruct h as [n |]; simpl; [| auto].
  rewrite list_elem_of_filter. tauto.
Qed.

Lemma clearTimeout_wf h tm : timers_wf tm -> timers_wf (clearTimeout h tm).
Proof.
  intros (Hp & Hs & Hn & Hi).
  destruct h as [n |]; [| repeat split; assumption].
  repeat split; simpl; auto.
  - intros t Ht. apply Hp. apply list_elem_of_filter in Ht. tauto.
  - eapply sublist_NoDup; [exact Hn |].
    apply fmap_sublist, sublist_filter.
Qed.

Lemma setTimeout_wf fn d t tm : timers_wf tm -> timers_wf (snd (setTimeout fn d t tm)).
Proof.
  intros (Hp & Hs & Hn & Hi).
  repeat split; simpl; auto.
  - intros x Hx. apply elem_of_app in Hx as [Hx | Hx].
    + apply Hp in Hx. lia.
    + apply list_elem_of_singleton in Hx. subst. simpl. lia.
  - intros k h Hk. apply Hs in Hk. lia.
  - rewrite fmap_app. apply NoDup_app. split; [exact Hn |]. split.
    + intros h Hh Hh'. simpl in Hh'. apply list_elem_of_singleton in Hh'. subst.
      apply list_elem_of_fmap in Hh as (x & Hx & Hin). apply Hp in Hin. lia.
    + simpl. apply NoDup_singleton.
Qed.

Lemma expire_wf t tm : timers_wf tm -> timers_wf (expire t tm).
Proof.
  intros (Hp & Hs & Hn & Hi).
  repeat split; simpl; auto.
  - intros x Hx. apply Hp. apply list_elem_of_filter in Hx. tauto.
  - eapply sublist_NoDup; [exact Hn |].
    apply fmap_sublist, sublist_filter.
Qed.

Lemma saveContent_world sid c (w : World) :
  let w1 := if change_isContent c
            then set_currentContent (Some (mkContent (change_content c) "tiptap" false)) w
            else w in
  world (saveContent sid c w)
  = set_timers (withTimer (timer_key w1) (JobSave (make_params sid c w1) sid) 500
                  (now w1) (timers w1)) w1.
Proof. unfold saveContent. run. now destruct (change_isContent c). Qed.

Lemma no_timers_wf : timers_wf no_timers.
Proof.
  repeat split; simpl.
  - intros x Hx. inversion Hx.
  - intros k h Hk. rewrite lookup_empty in Hk. discriminate.
  - apply NoDup_nil_2.
  - intros k1 k2 h Hk. rewrite lookup_empty in Hk. discriminate.
Qed.

Lemma withTimer_wf id fn d t tm : timers_wf tm -> timers_wf (withTimer id fn d t tm).
Proof.
  intros Hwf.
  pose proof (setTimeout_wf fn d t _ (clearTimeout_wf (slots tm !! id) tm Hwf))
    as (Hp & Hs & Hn & Hi).
  unfold withTimer. simpl in *.
  assert (slots (clearTimeout (slots tm !! id) tm) = slots tm) as Hsl
    by (now destruct (slots tm !! id)).
  assert (next_handle (clearTimeout (slots tm !! id) tm) = next_handle tm) as Hnx
    by (now destruct (slots tm !! id)).
  rewrite Hsl, Hnx in *.
  destruct Hwf as (_ & Hs0 & _ & Hi0).
  repeat split; simpl; auto.
  - intros k h Hk. destruct (decide (k = id)) as [-> | Hne].
    + rewrite lookup_insert_eq in Hk. inversion Hk. lia.
    + rewrite lookup_insert_ne in Hk by congruence. apply Hs0 in Hk. lia.
  - intros k1 k2 h H1 H2.
    destruct (decide (k1 = id)) as [-> | Hne1], (decide (k2 = id)) as [-> | Hne2];
      try reflexivity.
    + rewrite lookup_insert_eq in H1. rewrite lookup_insert_ne in H2 by congruence.
      inversion H1; subst. apply Hs0 in H2. lia.
    + rewrite lookup_insert_eq in H2. rewrite lookup_insert_ne in H1 by congruence.
      inversion H2; subst. apply Hs0 in H1. lia.
    + rewrite lookup_insert_ne in H1, H2 by congruence. eauto.
Qed.

Lemma saveContent_timers sid c (w : World) :
  timers (world (saveContent sid c w))
  = withTimer (timer_key w) (JobSave (make_params sid c w) sid) 500 (now w) (timers w).
Proof. rewrite saveContent_world. now destruct (change_isContent c). Qed.

(** [withTimer] replaces the timer pending under its name and leaves the
    timers pending under every other name. *)
Lemma withTimer_pending_for id fn d t tm :
  timers_wf tm ->
  pending_for id (withTimer id fn d t tm) = [mkTimer (next_handle tm) (t + d) fn]
  /\ forall k, k <> id -> pending_for k (withTimer id fn d t tm) = pending_for k tm.
Proof.
  intros (Hp & Hs & Hn & Hi).
  unfold pending_for, withTimer, setTimeout. simpl.
  assert (slots (clearTimeout (slots tm !! id) tm) = slots tm) as Hsl
    by (now destruct (slots tm !! id)).
  assert (next_handle (clearTimeout (slots tm !! id) tm) = next_handle tm) as Hnx
    by (now destruct (slots tm !! id)).
  rewrite Hsl, Hnx. split.
  - rewrite filter_app, filter_nothing.
    + simpl. rewrite filter_cons, filter_nil. simpl.
      rewrite lookup_insert_eq. now rewrite decide_True by reflexivity.
    + intros x Hx. apply clearTimeout_pending, Hp in Hx.
      rewrite lookup_insert_eq. intros Heq. inversion Heq. lia.
  - intros k Hk. rewrite filter_app.
    rewrite (filter_nothing _ [_]).
    + rewrite app_nil_r.
      destruct (slots tm !! id) as [n |] eqn:Hkey; simpl.
      * rewrite list_filter_filter. apply filter_agree.
        intros x Hx. rewrite lookup_insert_ne by congruence. split; [tauto |].
        intros Hkx. split; [exact Hkx |]. intros Heq. subst n.
        apply Hk. eapply Hi; eassumption.
      * apply filter_agree. intros x Hx. now rewrite lookup_insert_ne by congruence.
    + intros x Hx. apply list_elem_of_singleton in Hx. subst x. simpl.
      rewrite lookup_insert_ne by congruence. intros Heq. apply Hs in Heq. lia.
Qed.

(** The guard of lines 176-181 refuses a world that is read-only. *)
Lemma editable_false w :
  readonly props = true \/ store_readonly w = true
  \/ (exists n, currentNote w = Some n /\ note_readonly n = true) ->
  editable props w = false.
Proof.
  unfold editable.
  intros [H | [H | (n & Hn & H)]].
  - now rewrite H.
  - rewrite H. now destruct (readonly props).
  - rewrite Hn. simpl. rewrite H.
    now destruct (readonly props), (store_readonly w).
Qed.

(** C9.  A call of [saveNote] that exits early because the editor is
    read-only (by the prop, by the flag of the store, or on the current note)
    or because the stored note is conflicted returns undefined, leaves every
    ref, the store and the database as they were (so the save counter, the
    history-session token, the current note and the current content are
    unchanged) and makes no call on the persistence module or on any other
    collaborator. *)
Theorem saveNote_early_exit_is_noop (p : SavePayload) (w : World) :
  readonly props = true \/ store_readonly w = true
  \/ (exists n, currentNote w = Some n /\ note_readonly n = true)
  \/ (exists n, find_note (sp_id p) w = Some n /\ note_conflicted n = true) ->
  saveNote props env p w = mkRun (Returned None) w [].
Proof.
  intros H.
  destruct (editable props w) eqn:He.
  - destruct H as [H | [H | [H | (n & Hn & Hc)]]];
      try (rewrite editable_false in He; [discriminate | tauto]).
    unfold saveNote, bind, get, try_catch; simpl. rewrite He; simpl.
    unfold save_write, bind, get; simpl.
    rewrite Hn, bool_decide_is_Some; simpl.
    rewrite andb_false_r, Hc. reflexivity.
  - unfold saveNote, bind, get; simpl. rewrite He. reflexivity.
Qed.

(** ** The status indicator (lines 242-244) *)

Lemma reset_no_status b w : status_sent (effects (reset props env b w)) = false.
Proof. unfold reset. exec; reflexivity. Qed.

(** Nothing before the end of the write touches the status indicator. *)
Lemma save_write_no_status p w :
  status_sent (effects (save_write props env p w)) = false.
Proof.
  unfold save_write, save_unlocked, save_locked, call_notes_add, call_vault_save, reset.
  exec; reflexivity.
Qed.

(** After the write the status is updated only under the captured token. *)
Lemma save_finish_status sid id w :
  status_sent (effects (save_finish env sid id w)) = true ->
  truthy id = true /\ sessionIdRef w = sid.
Proof.
  unfold save_finish. run.
  destruct (truthy id); simpl; [| discriminate].
  destruct (String.eqb_spec (sessionIdRef w) sid); simpl; [auto | discriminate].
Qed.

(** C1.  A save captured under session token [sp_sessionId p]: if the active
    session token is another one when the write has completed (the world
    [save_write] leaves, after whatever ran during its [await]), the save
    sends no [setStatus] command at all.  So the status indicator is updated
    only when the active token still equals the captured one. *)
Theorem stale_save_sends_no_status (p : SavePayload) (w : World) :
  sessionIdRef (world (save_write props env p w)) <> sp_sessionId p ->
  status_sent (effects (saveNote props env p w)) = false.
Proof.
  intros Hstale.
  unfold saveNote. run.
  destruct (editable props w); simpl; [| reflexivity].
  pose proof (save_write_no_status p w) as Hw.
  destruct (save_write props env p w) as [[[id |] |] w1 l1]; simpl in *.
  - destruct (save_finish env (sp_sessionId p) id w1) as [[[] |] w2 l2] eqn:Hf; simpl;
      rewrite !status_sent_app, Hw; simpl; rewrite orb_false_r;
      (destruct (status_sent l2) eqn:Hs; [| reflexivity]);
      assert (status_sent (effects (save_finish env (sp_sessionId p) id w1)) = true)
        as Hs' by (now rewrite Hf);
      apply save_finish_status in Hs'; tauto.
  - now rewrite app_nil_r.
  - rewrite status_sent_app, Hw. reflexivity.
Qed.

(** ** What a save writes (lines 193-241) *)

(** A save writes at most once, and what it writes is built from the
    payload. *)
Lemma saveNote_written p w :
  written (effects (saveNote props env p w)) =
  if reaches_write props p w then
    [if from_option note_locked false (find_note (sp_id p) w)
     then with_contentId (find_note (sp_id p) w ≫= note_contentId)
            (build_noteData p (history_token p w))
     else build_noteData p (history_token p w)]
  else [].
Proof.
  unfold_save.
  destruct (editable props w); simpl; [| reflexivity].
  destruct (find_note (sp_id p) w) as [n |] eqn:Hn; simpl.
  - rewrite andb_false_r, orb_true_r. simpl.
    exec; try congruence; reflexivity.
  - rewrite andb_true_r, orb_false_r.
    exec; try congruence; reflexivity.
Qed.

(** The write of a locked note goes to the vault, any other to
    [db.notes.add]. *)
Lemma saveNote_added p w :
  added (effects (saveNote props env p w)) =
  if reaches_write props p w && negb (from_option note_locked false (find_note (sp_id p) w))
  then [build_noteData p (history_token p w)]
  else [].
Proof.
  unfold_save.
  destruct (editable props w); simpl; [| reflexivity].
  destruct (find_note (sp_id p) w) as [n |] eqn:Hn; simpl.
  - rewrite andb_false_r, orb_true_r. simpl.
    exec; try congruence; reflexivity.
  - rewrite andb_true_r, orb_false_r.
    exec; try congruence; reflexivity.
Qed.

Lemma saveNote_vault_saved p w :
  vault_saved (effects (saveNote props env p w)) =
  if reaches_write props p w && from_option note_locked false (find_note (sp_id p) w)
  then [with_contentId (find_note (sp_id p) w ≫= note_contentId)
          (build_noteData p (history_token p w))]
  else [].
Proof.
  unfold_save.
  destruct (editable props w); simpl; [| reflexivity].
  destruct (find_note (sp_id p) w) as [n |] eqn:Hn; simpl.
  - rewrite andb_false_r, orb_true_r. simpl.
    exec; try congruence; reflexivity.
  - rewrite andb_true_r, orb_false_r.
    exec; try congruence; reflexivity.
Qed.

(** C3.  A save whose target note is vault-locked never calls
    [db.notes.add]; every partial update it hands to [db.vault.save] carries
    the content identifier of the stored note and the note id of the payload;
    and when the call gets to the write (the editor is not read-only, the note
    is not conflicted) it makes exactly one call of [db.vault.save]. *)
Theorem locked_note_saved_through_vault (p : SavePayload) (w : World) (n : Note) :
  find_note (sp_id p) w = Some n ->
  note_locked n = true ->
  added (effects (saveNote props env p w)) = []
  /\ (forall nd, nd ∈ vault_saved (effects (saveNote props env p w)) ->
        nd_contentId nd = note_contentId n /\ nd_id nd = sp_id p)
  /\ (reaches_write props p w = true ->
        exists nd, vault_saved (effects (saveNote props env p w)) = [nd]).
Proof.
  intros Hn Hlocked.
  rewrite saveNote_added, saveNote_vault_saved, Hn. simpl. rewrite Hlocked.
  rewrite andb_false_r, andb_true_r.
  split; [reflexivity |]. split.
  - destruct (reaches_write props p w); intros nd Hnd.
    + apply list_elem_of_singleton in Hnd. subst nd. split; reflexivity.
    + inversion Hnd.
  - intros ->. eauto.
Qed.



(** The database after a save that wrote no title, when the persistence
    module keeps the titles an update does not name and the other tasks leave
    the database alone. *)
Lemma saveNote_keeps_titles p w i n :
  truthy (sp_title p) = false ->
  keeps_titles ->
  (forall pt w', db (env pt w') = db w') ->
  notes_note (db w) i = Some n ->
  note_title <$> notes_note (db (world (saveNote props env p w))) i = Some (note_title n).
Proof.
  intros Htitle [Hadd Hvault] Henv Hn.
  assert (forall h, nd_title (build_noteData p h) = None) as Hnd
    by (intros h; simpl; now rewrite Htitle).
  unfold_save.
  exec; rewrite ?Henv; simpl; rewrite ?Henv; simpl; rewrite ?Henv; simpl;
    rewrite ?Henv; simpl;
    try (now rewrite Hn);
    try (eapply Hadd; [| eassumption | eassumption]; apply Hnd);
    try (eapply Hvault; [| eassumption | eassumption]; apply Hnd).
Qed.

(** C10.  A save whose payload has an empty (or no) title: no partial update
    it writes has a title field; so, when the persistence module keeps the
    titles an update does not name and no other task writes to the database
    meanwhile, every stored title is after the save what it was before. *)
Theorem empty_title_is_not_written (p : SavePayload) (w : World) :
  truthy (sp_title p) = false ->
  (forall nd, nd ∈ written (effects (saveNote props env p w)) -> nd_title nd = None)
  /\ (keeps_titles ->
      (forall pt w', db (env pt w') = db w') ->
      forall i n,
        notes_note (db w) i = Some n ->
        note_title <$> notes_note (db (world (saveNote props env p w))) i
        = Some (note_title n)).
Proof.
  intros Htitle. split.
  - rewrite saveNote_written.
    destruct (reaches_write props p w); intros nd Hnd; [| inversion Hnd].
    apply list_elem_of_singleton in Hnd. subst nd.
    destruct (from_option note_locked false _); simpl; now rewrite Htitle.
  - intros Hkeeps Henv i n Hn. now apply saveNote_keeps_titles.
Qed.

(** ** The list refresh (lines 246-258) *)

Lemma opt_string_eqb_eq a b : opt_string_eqb a b = true <-> a = b.
Proof.
  destruct a as [x |], b as [y |]; simpl; try (split; congruence).
  rewrite String.eqb_eq. split; congruence.
Qed.

(** The condition of lines 246-251, read as the spec words it; the first 200
    characters of a preview text are its first 200 UTF-16 code units. *)
Lemma needs_refresh_spec w note :
  needs_refresh w note = true <->
  saveCount w < 2
  \/ note_title <$> currentNote w <> Some (note_title note)
  \/ slice200 (currentNote w ≫= note_headline) <> slice200 (note_headline note).
Proof.
  unfold needs_refresh.
  rewrite !orb_true_iff, !negb_true_iff, Z.ltb_lt, bool_decide_eq_false.
  rewrite <- !not_true_iff_false, !opt_string_eqb_eq. tauto.
Qed.

(** Nothing before the end of the write asks for a refresh. *)
Lemma save_write_no_refresh p w :
  refresh_sent (effects (save_write props env p w)) = false.
Proof.
  unfold save_write, save_unlocked, save_locked, call_notes_add, call_vault_save, reset.
  exec; reflexivity.
Qed.

(** C5, as the code has it.  A save broadcasts a list refresh exactly when
    all of this holds: the editor is writable; the write completed, leaving
    the world [world (save_write p w)] and a note id that is not empty; the
    active session token is still the one the payload captured; the note can
    be read back; and the save counter is below 2, or the cached title
    differs from the saved one, or the first 200 characters of the cached
    preview text differ from those of the saved one (the counter and the
    cache read after the status update was awaited).  So a save whose session
    token is stale broadcasts nothing, whatever the save counter, and neither
    does a save whose write resolved to no note id, however fresh its
    token. *)
Theorem refresh_under_session_guard (p : SavePayload) (w : World) :
  (refresh_sent (effects (saveNote props env p w)) = true <->
   editable props w = true
   /\ exists id note,
        outcome (save_write props env p w) = Returned (Some id)
        /\ truthy id = true
        /\ sessionIdRef (world (save_write props env p w)) = sp_sessionId p
        /\ find_note id (world (save_write props env p w)) = Some note
        /\ (saveCount (env AwSetStatus (world (save_write props env p w))) < 2
            \/ note_title <$> currentNote (env AwSetStatus (world (save_write props env p w)))
               <> Some (note_title note)
            \/ slice200 (currentNote (env AwSetStatus (world (save_write props env p w)))
                         ≫= note_headline)
               <> slice200 (note_headline note)))
  /\ (sessionIdRef (world (save_write props env p w)) <> sp_sessionId p ->
      refresh_sent (effects (saveNote props env p w)) = false)
  /\ (forall id,
        outcome (save_write props env p w) = Returned (Some id) ->
        truthy id = false ->
        refresh_sent (effects (saveNote props env p w)) = false).
Proof.
  assert (refresh_sent (effects (saveNote props env p w)) = true <->
          editable props w = true
          /\ exists id note,
               outcome (save_write props env p w) = Returned (Some id)
               /\ truthy id = true
               /\ sessionIdRef (world (save_write props env p w)) = sp_sessionId p
               /\ find_note id (world (save_write props env p w)) = Some note
               /\ needs_refresh (env AwSetStatus (world (save_write props env p w))) note
                  = true) as Hiff.
  { pose proof (save_write_no_refresh p w) as Hw.
    unfold saveNote. run.
    destruct (editable props w); simpl.
    2:{ split; [discriminate | intros [H _]; discriminate H]. }
    destruct (save_write props env p w) as [[[id |] |] w1 l1]; simpl in *.
    - unfold save_finish. run.
      destruct (truthy id) eqn:Hid; simpl.
      + destruct (String.eqb (sessionIdRef w1) (sp_sessionId p)) eqn:Hsid; simpl.
        * destruct (find_note id w1) as [note |] eqn:Hnote; simpl.
          -- destruct (needs_refresh (env AwSetStatus w1) note) eqn:Hr; simpl;
               rewrite !refresh_sent_app, Hw; simpl.
             ++ split; [intros _ | reflexivity].
                split; [reflexivity |]. exists id, note.
                apply String.eqb_eq in Hsid. auto.
             ++ split; [discriminate |].
                intros (_ & id' & note' & Hout & _ & _ & Hnote' & Hr').
                inversion Hout; subst id'. congruence.
          -- rewrite !refresh_sent_app, Hw. simpl.
             split; [discriminate |].
             intros (_ & id' & note' & Hout & _ & _ & Hnote' & _).
             inversion Hout; subst id'. congruence.
        * rewrite app_nil_r, Hw.
          split; [discriminate |].
          intros (_ & id' & note' & Hout & _ & Hsid' & _).
          apply String.eqb_neq in Hsid. contradiction.
      + rewrite app_nil_r, Hw.
        split; [discriminate |].
        intros (_ & id' & note' & Hout & Hid' & _).
        inversion Hout; subst id'. congruence.
    - rewrite ?app_nil_r, ?refresh_sent_app, ?Hw. simpl. split; [discriminate |].
      intros (_ & id' & note' & Hout & _). discriminate Hout.
    - rewrite ?app_nil_r, ?refresh_sent_app, ?Hw. simpl. split; [discriminate |].
      intros (_ & id' & note' & Hout & _). discriminate Hout. }
  split; [| split].
  - rewrite Hiff. split.
    + intros (Hed & id & note & Hout & Hid & Hsid & Hnote & Hr).
      apply needs_refresh_spec in Hr. eauto 10.
    + intros (Hed & id & note & Hout & Hid & Hsid & Hnote & Hr).
      apply needs_refresh_spec in Hr. eauto 10.
  - intros Hstale. apply not_true_is_false. intros E.
    apply Hiff in E as (_ & id & note & _ & _ & Hsid & _). contradiction.
  - intros id Hout Hid. apply not_true_is_false. intros E.
    apply Hiff in E as (_ & id' & note & Hout' & Hid' & _).
    rewrite Hout in Hout'. inversion Hout'; subst id'. congruence.
Qed.

(** ** The callback of the debounce timer (lines 382-395) *)

(** A computation followed by nothing: the same world and effects. *)
Lemma bind_ret_tt {A} (m : M A) (w : World) :
  world (bind m (fun _ => ret tt) w) = world (m w)
  /\ effects (bind m (fun _ => ret tt) w) = effects (m w).
Proof.
  unfold bind, ret. destruct (m w) as [[a |] w1 l1]; simpl; [| auto].
  now rewrite app_nil_r.
Qed.

(** The callback [saveContent] hands to [withTimer] is pending afterwards. *)
Lemma saveContent_schedules sid c (w : World) :
  JobSave (make_params sid c w) sid
  ∈ timer_job <$> pending (timers (world (saveContent sid c w))).
Proof.
  rewrite saveContent_world. cbv zeta.
  unfold withTimer, setTimeout. simpl.
  rewrite fmap_app. apply elem_of_app. right.
  destruct (change_isContent c); simpl; apply list_elem_of_singleton; reflexivity.
Qed.

(** The two ways of the callback (lines 390-394): with an observer and content
    the content goes to the observer; otherwise [saveNote] is called, with
    the payload of lines 383-389. *)
Lemma callback_forwards params sid w :
  onChange props && truthy (sp_data params) = true ->
  run_job props env (JobSave params sid) w
  = mkRun (Returned tt) w [EOnChange (default "" (sp_data params))].
Proof.
  intros Hfw.
  assert (sp_data (resolve_params params sid w) = sp_data params) as Hdata
    by (unfold resolve_params; destruct (_ && _ && _); reflexivity).
  unfold run_job, saveContent_callback. run. now rewrite Hdata, Hfw.
Qed.

Lemma callback_saves params sid w :
  onChange props && truthy (sp_data params) = false ->
  run_job props env (JobSave params sid) w
  = bind (saveNote props env (resolve_params params sid w)) (fun _ => ret tt) w.
Proof.
  intros Hfw.
  assert (sp_data (resolve_params params sid w) = sp_data params) as Hdata
    by (unfold resolve_params; destruct (_ && _ && _); reflexivity).
  unfold run_job, saveContent_callback.
  unfold bind at 1, get. simpl. rewrite Hdata, Hfw.
  now destruct (bind _ _ w).
Qed.

(** C2, as the code has it.  The callback [saveContent] hands to the timer,
    when it fires in world [w]: with an [onChange] observer and content it
    hands the content to the observer and nothing is saved; otherwise it
    calls [saveNote] once, with a payload that is the captured one except,
    possibly, for the note id.  A captured note id is never re-resolved,
    whatever session is active; a payload without note id is saved as
    captured when no note is current, and takes the id of the current note
    when the session it was captured under is still the active one.  The
    update that is written, if the save gets to the write, carries the note
    id of that payload. *)
Theorem callback_resolves_missing_id_only (sid : string) (c : Change) (w0 w : World) :
  let params := make_params sid c w0 in
  let r := run_job props env (JobSave params sid) w in
  JobSave params sid ∈ timer_job <$> pending (timers (world (saveContent sid c w0)))
  /\ (onChange props && truthy (sp_data params) = true ->
      r = mkRun (Returned tt) w [EOnChange (default "" (sp_data params))])
  /\ (onChange props && truthy (sp_data params) = false ->
      exists p',
        world r = world (saveNote props env p' w)
        /\ effects r = effects (saveNote props env p' w)
        /\ p' = with_id (sp_id p') params
        /\ (truthy (sp_id params) = true -> p' = params)
        /\ (currentNote w = None -> p' = params)
        /\ (truthy (sp_id params) = false ->
            is_Some (currentNote w) ->
            sessionIdRef w = sp_sessionId params ->
            sp_id p' = currentNote w ≫= note_id)
        /\ (reaches_write props p' w = true ->
            exists nd, written (effects r) = [nd] /\ nd_id nd = sp_id p')
        /\ (reaches_write props p' w = false -> written (effects r) = [])).
Proof.
  intros params r. split; [apply saveContent_schedules |].
  subst r. split; [apply callback_forwards |].
  intros Hfw. exists (resolve_params params sid w).
  rewrite (callback_saves params sid w Hfw).
  destruct (bind_ret_tt (saveNote props env (resolve_params params sid w)) w)
    as [Hw He].
  rewrite Hw, He.
  split; [reflexivity |]. split; [reflexivity |].
  unfold resolve_params. rewrite bool_decide_is_Some.
  split; [destruct (_ && _ && _), params; reflexivity |].
  split; [intros ->; now rewrite andb_false_r |].
  split; [now intros -> |].
  split.
  - intros Hid [n Hn] _. rewrite Hn, Hid. subst params. simpl.
    now rewrite String.eqb_refl.
  - fold (resolve_params params sid w).
    rewrite saveNote_written.
    split; [intros -> | intros ->; reflexivity].
    eexists. split; [reflexivity |].
    now destruct (from_option note_locked false _).
Qed.

(** ** Restore on resume (lines 402-433) *)

Lemma restorable_spec a t :
  restorable a t = true <->
  as_editing a = true
  /\ (exists n, as_note a = Some n /\ note_locked n = false /\ truthy (note_id n) = true)
  /\ t < as_timestamp a + 3600000.
Proof.
  unfold restorable. rewrite !andb_true_iff, negb_true_iff, Z.ltb_lt.
  destruct (as_note a) as [n |]; simpl.
  - split.
    + intros [[[? ?] ?] ?]. eauto 10.
    + intros (? & (n' & Hn & ? & ?) & ?). inversion Hn; subst. auto.
  - split.
    + intros [[[? ?] ?] ?]. discriminate.
    + intros (? & (n' & Hn & ? & ?) & ?). discriminate.
Qed.

(** C8.  The restore-on-resume handler.  The condition of lines 406-411 holds
    exactly when the blob records [editing], a note that is not locked and has
    an id, and a timestamp less than 3,600,000 ms before the clock reading.
    When it holds of the stored blob, the handler schedules one callback,
    which replays the note of the blob as a note load, and removes the blob;
    when it does not hold, or there is no blob, the handler schedules nothing
    and leaves the store as it is.  So a blob is replayed at most once: a
    second run of the handler schedules nothing. *)
Theorem restore_on_resume (w : World) :
  (forall a t,
      restorable a t = true <->
      as_editing a = true
      /\ (exists n, as_note a = Some n /\ note_locked n = false
                    /\ truthy (note_id n) = true)
      /\ t < as_timestamp a + 3600000)
  /\ (forall a,
        mmkv_appState w = Some a ->
        restorable a (now (env AwGetItem w)) = true ->
        timers (world (restoreEditorState props env w))
        = snd (setTimeout (JobLoadNote (as_note a)) 1 (now (env AwGetItem w))
                 (timers (env AwGetItem w)))
        /\ mmkv_appState (world (restoreEditorState props env w)) = None
        /\ timers (world (restoreEditorState props env
                            (world (restoreEditorState props env w))))
           = timers (env AwGetItem (world (restoreEditorState props env w))))
  /\ (forall a,
        mmkv_appState w = Some a ->
        restorable a (now (env AwGetItem w)) = false ->
        timers (world (restoreEditorState props env w)) = timers (env AwGetItem w)
        /\ mmkv_appState (world (restoreEditorState props env w))
           = mmkv_appState (env AwGetItem w))
  /\ (mmkv_appState w = None ->
      timers (world (restoreEditorState props env w)) = timers (env AwGetItem w)
      /\ effects (restoreEditorState props env w) = [])
  /\ (forall n, run_job props env (JobLoadNote (Some n))
                = loadNote props env (mkItem TypeNote false n)).
Proof.
  split; [exact restorable_spec |].
  assert (forall w0, mmkv_appState w0 = None ->
            timers (world (restoreEditorState props env w0)) = timers (env AwGetItem w0)
            /\ effects (restoreEditorState props env w0) = []) as Hnone.
  { intros w0 H0. unfold restoreEditorState, overlay. run. rewrite H0. simpl. auto. }
  split; [| split; [| split; [apply Hnone | reflexivity]]].
  - intros a Ha Hr.
    assert (mmkv_appState (world (restoreEditorState props env w)) = None) as Hgone.
    { unfold restoreEditorState, overlay. run. rewrite Ha. simpl. rewrite Hr. simpl.
      destruct isTab; reflexivity. }
    split; [| split; [exact Hgone | now apply Hnone]].
    unfold restoreEditorState, overlay. run. rewrite Ha. simpl. rewrite Hr. simpl.
    destruct isTab; reflexivity.
  - intros a Ha Hr.
    unfold restoreEditorState, overlay. run. rewrite Ha. simpl. rewrite Hr. simpl. auto.
Qed.

(** ** Opening a note (lines 282-324) *)

(** The early return of line 302. *)
Lemma loadNote_same_note item w :
  item_type item = TypeNote ->
  item_forced item = false ->
  currentNote w ≫= note_id = note_id (item_note item) ->
  loadNote props env item w
  = mkRun (Returned tt) (set_state (set_currentlyEditing true (state w)) w) [].
Proof.
  intros Hty Hf Hid. apply opt_string_eqb_eq in Hid.
  unfold loadNote. rewrite Hty. run. rewrite Hf, Hid. reflexivity.
Qed.

(** What a note load leaves, when the other tasks leave the current note and
    the editor state alone. *)
Lemma loadNote_leaves item w :
  item_type item = TypeNote ->
  (forall pt w', currentNote (env pt w') = currentNote w') ->
  (forall pt w', state (env pt w') = state w') ->
  currentNote (world (loadNote props env item w)) ≫= note_id = note_id (item_note item)
  /\ currentlyEditing (state (world (loadNote props env item w))) = true.
Proof.
  intros Hty Hc Hs.
  unfold loadNote, loadImages, loadContent, overlay, reset. rewrite Hty.
  exec; repeat (rewrite ?Hc, ?Hs; simpl); auto.
  split; [| reflexivity].
  match goal with
  | H : _ && _ = true |- _ => apply andb_true_iff in H as [_ H]
  end.
  now apply opt_string_eqb_eq.
Qed.

(** C7.  An "open existing note" request that is not forced, for the note
    whose id is the id of the current note: [loadNote] returns at once, with
    no effect at all (no session token is minted, no content is fetched, no
    command or message is sent); all it leaves behind is the
    [currentlyEditing] flag, set.  And opening a note a second time is a
    no-op: after a first open of the item, run with the other tasks leaving
    the current note and the editor state alone, a second open of the same
    item has no effect and leaves the world exactly as it found it. *)
Theorem reopen_same_note_is_noop (item : Item) (w : World) :
  item_type item = TypeNote ->
  item_forced item = false ->
  (currentNote w ≫= note_id = note_id (item_note item) ->
   loadNote props env item w
   = mkRun (Returned tt) (set_state (set_currentlyEditing true (state w)) w) []
   /\ sessionIdRef (world (loadNote props env item w)) = sessionIdRef w
   /\ sessionHistoryId (world (loadNote props env item w)) = sessionHistoryId w
   /\ currentContent (world (loadNote props env item w)) = currentContent w)
  /\ ((forall pt w', currentNote (env pt w') = currentNote w') ->
      (forall pt w', state (env pt w') = state w') ->
      loadNote props env item (world (loadNote props env item w))
      = mkRun (Returned tt) (world (loadNote props env item w)) []).
Proof.
  intros Hty Hf. split.
  - intros Hid. rewrite (loadNote_same_note item w Hty Hf Hid). auto.
  - intros Hc Hs.
    destruct (loadNote_leaves item w Hty Hc Hs) as [Hid Hed].
    rewrite (loadNote_same_note item _ Hty Hf Hid). f_equal.
    destruct (world (loadNote props env item w)) as [? ? ? ? ? st ? ? ? ? ? ? ?].
    simpl in *. destruct st. simpl in *. subst. reflexivity.
Qed.

(** ** Debounce (lines 138-144 and 355-400) *)

(** *** Timers that only grow *)

Lemma timers_grow_refl tm : timers_grow tm tm.
Proof.
  split; [reflexivity |]. split; [lia |]. exists [].
  rewrite app_nil_r. split; [reflexivity |].
  split; [apply NoDup_nil_2 | intros x Hx; inversion Hx].
Qed.

Lemma timers_grow_trans tm1 tm2 tm3 :
  timers_grow tm1 tm2 -> timers_grow tm2 tm3 -> timers_grow tm1 tm3.
Proof.
  intros (Hs1 & Hn1 & l1 & Hp1 & Hd1 & Hh1) (Hs2 & Hn2 & l2 & Hp2 & Hd2 & Hh2).
  split; [congruence |]. split; [lia |]. exists (l1 ++ l2).
  split; [rewrite Hp2, Hp1, app_assoc; reflexivity |]. split.
  - rewrite fmap_app. apply NoDup_app. split; [assumption |]. split; [| assumption].
    intros h Hin1 Hin2.
    apply list_elem_of_fmap in Hin1 as (x & -> & Hx).
    apply list_elem_of_fmap in Hin2 as (y & Heq & Hy).
    apply Hh1 in Hx. apply Hh2 in Hy. lia.
  - intros x Hx. apply elem_of_app in Hx as [Hx | Hx];
      [apply Hh1 in Hx | apply Hh2 in Hx]; lia.
Qed.

Lemma setTimeout_grows fn d t tm : timers_grow tm (snd (setTimeout fn d t tm)).
Proof.
  unfold timers_grow, setTimeout. simpl. split; [reflexivity |]. split; [lia |].
  exists [mkTimer (next_handle tm) (t + d) fn].
  split; [reflexivity |]. split; [apply NoDup_singleton |].
  intros x Hx. apply list_elem_of_singleton in Hx. subst. simpl. lia.
Qed.

Lemma timers_grow_wf tm tm' : timers_grow tm tm' -> timers_wf tm -> timers_wf tm'.
Proof.
  intros (Hs & Hn & l & Hp & Hd & Hh) (Hp0 & Hs0 & Hn0 & Hi0).
  split; [| split; [| split]].
  - intros x Hx. rewrite Hp in Hx. apply elem_of_app in Hx as [Hx | Hx];
      [apply Hp0 in Hx | apply Hh in Hx]; lia.
  - intros k h Hk. rewrite Hs in Hk. apply Hs0 in Hk. lia.
  - rewrite Hp, fmap_app. apply NoDup_app. split; [assumption |]. split; [| assumption].
    intros h H1 H2.
    apply list_elem_of_fmap in H1 as (x & -> & Hx).
    apply list_elem_of_fmap in H2 as (y & Heq & Hy).
    apply Hp0 in Hx. apply Hh in Hy. lia.
  - intros k1 k2 h H1 H2. rewrite Hs in H1, H2. eauto.
Qed.

Lemma timers_grow_pending_for k tm tm' :
  timers_grow tm tm' -> timers_wf tm -> pending_for k tm' = pending_for k tm.
Proof.
  intros (Hs & Hn & l & Hp & Hd & Hh) (Hp0 & Hs0 & _).
  unfold pending_for. rewrite Hs, Hp, filter_app, (filter_nothing _ l), app_nil_r;
    [reflexivity |].
  intros x Hx Heq. apply Hs0 in Heq. apply Hh in Hx. lia.
Qed.

Lemma timers_grow_old tm tm' x :
  timers_grow tm tm' -> x ∈ pending tm' -> (timer_handle x < next_handle tm)%nat ->
  x ∈ pending tm.
Proof.
  intros (Hs & Hn & l & Hp & Hd & Hh) Hx Hlt.
  rewrite Hp in Hx. apply elem_of_app in Hx as [Hx | Hx]; [exact Hx |].
  apply Hh in Hx. lia.
Qed.

(** *** What the callbacks do to the timers

    The functions of the hook other than [saveContent] touch the timers
    through [setTimeout] alone; so does the runtime when it runs the
    callbacks that are due, if the other tasks do. *)
Section Rely.

Hypothesis Henv : only_starts_timers env.

Ltac grows :=
  repeat match goal with
    | |- timers_grow ?a ?a => apply timers_grow_refl
    | |- timers_grow _ (timers (env _ _)) =>
        eapply timers_grow_trans; [| apply Henv]
    | |- timers_grow _ (mkTimers (slots ?tm)
                          (pending ?tm ++ [mkTimer (next_handle ?tm) (?t + ?d) ?fn])
                          (S (next_handle ?tm))) =>
        eapply timers_grow_trans; [| exact (setTimeout_grows fn d t tm)]
    | |- timers_grow _ (timers _) => progress simpl
    end.

Lemma saveNote_grows p w :
  timers_grow (timers w) (timers (world (saveNote props env p w))).
Proof. unfold_save. repeat (split_cond; simpl); grows. Qed.

Lemma loadNote_grows item w :
  timers_grow (timers w) (timers (world (loadNote props env item w))).
Proof.
  unfold loadNote, loadImages, loadContent, overlay, reset. run.
  repeat (split_cond; simpl); grows.
Qed.

Lemma run_job_grows j w :
  timers_grow (timers w) (timers (world (run_job props env j w))).
Proof.
  destruct j as [params sid | id | | [n |]]; simpl.
  - unfold saveContent_callback. run.
    destruct (onChange props && _); simpl; [apply timers_grow_refl |].
    pose proof (saveNote_grows (resolve_params params sid w) w) as Hg.
    destruct (saveNote props env (resolve_params params sid w) w) as [[a |] w1 l1];
      exact Hg.
  - run. destruct (truthy id); simpl; apply timers_grow_refl.
  - unfold loadImages_callback. run.
    repeat (split_cond; simpl); apply timers_grow_refl.
  - apply loadNote_grows.
  - apply timers_grow_refl.
Qed.

Lemma run_jobs_grows js : forall w,
  timers_grow (timers w) (timers (run_jobs props env js w)).
Proof.
  induction js as [| j js IH]; intros w; simpl; [apply timers_grow_refl |].
  eapply timers_grow_trans; [apply run_job_grows | apply IH].
Qed.

(** So the timers stay well formed through everything the hook and the
    runtime do. *)
Lemma callbacks_keep_timers_wf j t w :
  timers_wf (timers w) ->
  timers_wf (timers (world (run_job props env j w)))
  /\ timers_wf (timers (run_jobs props env (due t (timers w))
                          (set_timers (expire t (timers w)) w))).
Proof.
  intros Hwf. split.
  - exact (timers_grow_wf _ _ (run_job_grows j w) Hwf).
  - apply (timers_grow_wf _ _ (run_jobs_grows _ (set_timers (expire t (timers w)) w))).
    simpl. now apply expire_wf.
Qed.

Lemma fire_grows t w :
  timers_grow (expire t (timers w)) (timers (snd (fire props env t w))).
Proof.
  unfold fire. cbn [snd].
  exact (run_jobs_grows _ (set_timers (expire t (timers (set_now t w))) (set_now t w))).
Qed.

Lemma expire_pending_for k t tm :
  pending_for k (expire t tm)
  = filter (fun x => t < timer_deadline x) (pending_for k tm).
Proof.
  unfold pending_for, expire. simpl. rewrite !list_filter_filter.
  apply filter_agree. intros; tauto.
Qed.

Lemma handle_determines tm x y :
  timers_wf tm -> x ∈ pending tm -> y ∈ pending tm ->
  timer_handle x = timer_handle y -> x = y.
Proof.
  intros (_ & _ & Hnd & _). induction (pending tm) as [| a l IH]; intros Hx Hy Heq.
  - inversion Hx.
  - rewrite fmap_cons in Hnd. apply NoDup_cons in Hnd as [Hna Hnd].
    apply elem_of_cons in Hx as [-> | Hx], Hy as [-> | Hy]; auto.
    + exfalso. apply Hna. rewrite Heq. now apply list_elem_of_fmap_2.
    + exfalso. apply Hna. rewrite <- Heq. now apply list_elem_of_fmap_2.
Qed.

Lemma withTimer_parts id fn d t tm :
  slots (withTimer id fn d t tm) !! id = Some (next_handle tm)
  /\ next_handle (withTimer id fn d t tm) = S (next_handle tm)
  /\ pending (withTimer id fn d t tm)
     = pending (clearTimeout (slots tm !! id) tm) ++ [mkTimer (next_handle tm) (t + d) fn].
Proof.
  unfold withTimer, setTimeout. simpl.
  assert (next_handle (clearTimeout (slots tm !! id) tm) = next_handle tm) as Hnx
    by (now destruct (slots tm !! id)).
  rewrite Hnx, lookup_insert_eq. auto.
Qed.

Lemma last_cons {A} (a d : A) (l : list A) : List.last (a :: l) d = List.last l a.
Proof.
  revert a d. induction l as [| b l IH]; intros a d; [reflexivity |].
  change (List.last (a :: b :: l) d) with (List.last (b :: l) d).
  now rewrite !IH.
Qed.

Lemma feed_cons sid t c rest w :
  feed props env sid ((t, c) :: rest) w
  = ((fst (fire props env t w), snd (fire props env t w))
       :: fst (feed props env sid rest (snd (notify props env sid t c w))),
     snd (feed props env sid rest (snd (notify props env sid t c w)))).
Proof.
  cbn [feed]. unfold notify.
  destruct (fire props env t w) as [f1 w1]. cbn [fst snd].
  now destruct (feed props env sid rest (world (saveContent sid c w1))).
Qed.

Lemma notify_world sid t c w :
  snd (notify props env sid t c w)
  = world (saveContent sid c (snd (fire props env t w))).
Proof. unfold notify. now destruct (fire props env t w). Qed.

(** The invariant of a run of notifications against key [k]: [S] holds the
    handles the notifications started so far, and [dopt] the deadline of the
    timer of the last of them. *)
Lemma feed_keeps_last_timer sid k evs :
  forall w S dopt,
    timers_wf (timers w) ->
    (forall s, s ∈ S -> (s < next_handle (timers w))%nat) ->
    (forall x, x ∈ pending (timers w) -> timer_handle x ∈ S ->
               slots (timers w) !! k = Some (timer_handle x)
               /\ from_option (fun d => timer_deadline x = d) False dopt) ->
    quiet_run props env sid k dopt evs w ->
    timers_wf (timers (snd (feed props env sid evs w)))
    /\ (forall s, s ∈ started_in (fst (feed props env sid evs w)) ->
                  (next_handle (timers w) <= s)%nat)
    /\ (forall x, x ∈ fired_in (fst (feed props env sid evs w)) ->
                  timer_handle x ∉ S ++ started_in (fst (feed props env sid evs w)))
    /\ (forall x, x ∈ pending (timers (snd (feed props env sid evs w))) ->
                  timer_handle x ∈ S ++ started_in (fst (feed props env sid evs w)) ->
                  slots (timers (snd (feed props env sid evs w))) !! k
                  = Some (timer_handle x))
    /\ (forall tp cp fp wp,
          evs <> [] ->
          pending_for k (timers (snd (feed props env sid evs w)))
          = [started_timer sid (snd (List.last evs (tp, cp)))
               (snd (List.last (fst (feed props env sid evs w)) (fp, wp)))]).
Proof.
  induction evs as [| [t c] rest IH]; intros w S dopt Hwf HS Hinv Hq.
  - simpl. rewrite app_nil_r. split; [exact Hwf |].
    split; [intros s Hs; inversion Hs |].
    split; [intros x Hx; inversion Hx |].
    split; [intros x Hx Hin; now apply Hinv |].
    intros tp cp fp wp Hne. now contradiction Hne.
  - destruct Hq as (Ht & Hkey & Hq).
    rewrite feed_cons. cbn [fst snd].
    rewrite notify_world in *.
    set (w1 := snd (fire props env t w)) in *.
    set (w2 := world (saveContent sid c w1)) in *.
    pose proof (fire_grows t w) as Hg. fold w1 in Hg.
    pose proof (expire_wf t _ Hwf) as Hwfe.
    pose proof (timers_grow_wf _ _ Hg Hwfe) as Hwf1.
    assert (slots (timers w1) = slots (timers w)) as Hsl1 by apply Hg.
    assert (next_handle (timers w) <= next_handle (timers w1))%nat as Hnx1
      by (destruct Hg as (_ & Hn & _); exact Hn).
    assert (timers w2
            = withTimer k (JobSave (make_params sid c w1) sid) 500 (now w1) (timers w1))
      as Htm2 by (unfold w2; rewrite saveContent_timers, Hkey; reflexivity).
    destruct (withTimer_parts k (JobSave (make_params sid c w1) sid) 500 (now w1)
                (timers w1)) as (Hs2 & Hn2 & Hp2).
    rewrite <- Htm2 in Hs2, Hn2, Hp2.
    assert (timers_wf (timers w2)) as Hwf2 by (rewrite Htm2; now apply withTimer_wf).
    assert (pending_for k (timers w2) = [started_timer sid c w1]) as Hkey2
      by (rewrite Htm2; now apply withTimer_pending_for).
    (* a timer of the world before that is still pending in [w1] *)
    assert (forall x, x ∈ pending (timers w1) ->
                      (timer_handle x < next_handle (timers w))%nat ->
                      x ∈ pending (timers w) /\ t < timer_deadline x) as Hold.
    { intros x Hx Hlt.
      apply (timers_grow_old _ _ x Hg) in Hx; [| exact Hlt].
      unfold expire in Hx. simpl in Hx. apply list_elem_of_filter in Hx. tauto. }
    (* the timers of [w2] under a handle of the run: the new one alone *)
    assert (forall x, x ∈ pending (timers w2) ->
                      timer_handle x ∈ S ++ [next_handle (timers w1)] ->
                      x = started_timer sid c w1) as Hnew.
    { intros x Hx Hin. rewrite Hp2 in Hx.
      apply elem_of_app in Hx as [Hx | Hx];
        [| now apply list_elem_of_singleton in Hx].
      exfalso.
      assert (x ∈ pending (timers w1)) as Hx1 by (now apply clearTimeout_pending in Hx).
      destruct Hwf1 as (Hp1 & _).
      pose proof (Hp1 x Hx1) as Hlt.
      apply elem_of_app in Hin as [Hin | Hin];
        [| apply list_elem_of_singleton in Hin; lia].
      pose proof (HS _ Hin) as Hlt'.
      destruct (Hold x Hx1 Hlt') as [Hx0 _].
      destruct (Hinv x Hx0 Hin) as [Hslot _].
      rewrite <- Hsl1 in Hslot. rewrite Hslot in Hx. simpl in Hx.
      apply list_elem_of_filter in Hx as [Hne _]. now apply Hne. }
    destruct (IH w2 (S ++ [next_handle (timers w1)]) (Some (now w1 + 500)) Hwf2)
      as (Hwf' & Hst' & Hfi' & Hpe' & Hla').
    { intros s Hs. rewrite Hn2.
      apply elem_of_app in Hs as [Hs | Hs].
      - apply HS in Hs. lia.
      - apply list_elem_of_singleton in Hs. lia. }
    { intros x Hx Hin. rewrite (Hnew x Hx Hin). simpl. split; [exact Hs2 | reflexivity]. }
    { exact Hq. }
    split; [exact Hwf' |].
    split; [| split; [| split]].
    + intros s Hs. unfold started_in in Hs. rewrite fmap_cons in Hs. cbn [snd] in Hs.
      apply elem_of_cons in Hs as [-> | Hs]; [exact Hnx1 |].
      apply Hst' in Hs. lia.
    + intros x Hx. unfold fired_in in Hx. rewrite fmap_cons in Hx. cbn [fst concat] in Hx.
      unfold started_in. rewrite fmap_cons. cbn [snd].
      apply elem_of_app in Hx as [Hx | Hx].
      * unfold fire in Hx. cbn [fst] in Hx. simpl in Hx.
        apply list_elem_of_filter in Hx as [Hdue Hx].
        destruct Hwf as (Hp0 & _). pose proof (Hp0 x Hx) as Hlt.
        intros Hin. apply elem_of_app in Hin as [Hin | Hin].
        -- destruct (Hinv x Hx Hin) as [_ Hd].
           destruct dopt as [d |]; simpl in *; [lia | contradiction].
        -- apply elem_of_cons in Hin as [Hin | Hin]; [lia |].
           apply Hst' in Hin. lia.
      * intros Hin. apply (Hfi' x Hx).
        rewrite <- app_assoc. exact Hin.
    + intros x Hx Hin. apply Hpe'; [exact Hx |].
      unfold started_in in Hin. rewrite fmap_cons in Hin. cbn [snd] in Hin.
      rewrite <- app_assoc. exact Hin.
    + intros tp cp fp wp _. rewrite !last_cons.
      destruct rest as [| e rest'].
      * simpl. exact Hkey2.
      * apply Hla'. discriminate.
Qed.

(** C4.  Content-change notifications [(t0, c0)] and [rest] against the same
    note key, each delivered before the timer of the one before it is due,
    in an editor without [onChange] observer, from any world whose timers
    are well formed, whatever else is pending.  Every notification cancels
    the timer of the one before it: no timer the notifications started fires
    while they arrive; after the last one the only timer pending under the
    key, and the only pending timer of the run, is the one the last
    notification started; it fires once the clock reads 500 past that
    notification and not before; and its callback calls [saveNote] once,
    with the payload captured from the last change.  The other tasks are
    assumed to start timers at most while a callback waits. *)
Theorem debounce_runs_last_callback
    (sid k : string) (t0 : Z) (c0 : Change) (rest : list (Z * Change)) (w : World) :
  onChange props = false ->
  timers_wf (timers w) ->
  quiet_run props env sid k None ((t0, c0) :: rest) w ->
  let log := fst (feed props env sid ((t0, c0) :: rest) w) in
  let wN := snd (feed props env sid ((t0, c0) :: rest) w) in
  let cl := snd (List.last rest (t0, c0)) in
  let wl := snd (List.last log ([], w)) in
  (forall x, x ∈ fired_in log -> timer_handle x ∉ started_in log)
  /\ pending_for k (timers wN) = [started_timer sid cl wl]
  /\ (forall x, x ∈ pending (timers wN) -> timer_handle x ∈ started_in log ->
                x = started_timer sid cl wl)
  /\ (forall T, started_timer sid cl wl ∈ fst (fire props env T wN) <-> now wl + 500 <= T)
  /\ sp_title (make_params sid cl wl) = change_title cl
  /\ sp_data (make_params sid cl wl) = change_content cl
  /\ (forall wT,
        exists p',
          run_job props env (timer_job (started_timer sid cl wl)) wT
          = bind (saveNote props env p') (fun _ => ret tt) wT
          /\ p' = with_id (sp_id p') (make_params sid cl wl)).
Proof.
  intros Hobs Hwf Hq log wN cl wl.
  destruct (feed_keeps_last_timer sid k ((t0, c0) :: rest) w [] None Hwf)
    as (HwfN & _ & Hfired & Hpend & Hlast).
  { intros s Hs. inversion Hs. }
  { intros x _ Hin. inversion Hin. }
  { exact Hq. }
  specialize (Hlast 0 c0 [] w ltac:(discriminate)).
  rewrite last_cons in Hlast. fold log wN in Hfired, Hpend, Hlast, HwfN.
  change (snd (List.last rest (t0, c0))) with cl in Hlast.
  change (snd (List.last log ([], w))) with wl in Hlast.
  assert (started_timer sid cl wl ∈ pending (timers wN)) as Hin.
  { assert (started_timer sid cl wl ∈ pending_for k (timers wN)) as H
      by (rewrite Hlast; now apply list_elem_of_singleton).
    unfold pending_for in H. apply list_elem_of_filter in H. tauto. }
  split; [exact Hfired |]. split; [exact Hlast |]. split; [| split; [| split; [| split]]].
  - intros x Hx Hst.
    assert (x ∈ pending_for k (timers wN)) as H.
    { unfold pending_for. apply list_elem_of_filter. split; [| exact Hx].
      now apply Hpend. }
    rewrite Hlast in H. now apply list_elem_of_singleton in H.
  - intros T. unfold fire. cbn [fst]. simpl.
    rewrite list_elem_of_filter. simpl. tauto.
  - reflexivity.
  - reflexivity.
  - intros wT. exists (resolve_params (make_params sid cl wl) sid wT).
    split.
    + apply callback_saves. now rewrite Hobs.
    + unfold resolve_params. now destruct (_ && _ && _), (make_params sid cl wl).
Qed.

End Rely.

(** ** More on saveNote (lines 167-268) *)

Arguments truthy : simpl never.

Lemma truthy_if o : truthy (if truthy o then o else None) = truthy o.
Proof. now destruct (truthy o) eqn:E. Qed.

Lemma logged_app l1 l2 : logged (l1 ++ l2) = logged l1 || logged l2.
Proof. apply existsb_app. Qed.

Lemma created_ids_app l1 l2 :
  created_ids (l1 ++ l2) = created_ids l1 ++ created_ids l2.
Proof. apply omap_app. Qed.

(** X1.  [saveNote] never throws: whatever the persistence module does, and
    whatever runs during its awaits, the call resolves (lines 182 and
    263-265). *)
Theorem saveNote_never_throws (p : SavePayload) (w : World) :
  exists r, outcome (saveNote props env p w) = Returned r.
Proof.
  unfold saveNote. run.
  destruct (editable props w); simpl; [| eauto].
  destruct (save_write props env p w) as [[[id |] |] w1 l1]; simpl; eauto.
  destruct (save_finish env (sp_sessionId p) id w1) as [[[] |] w2 l2]; simpl; eauto.
Qed.

(** *** With the refs left alone *)

Section Quiet.

Hypothesis Hrefs : leaves_refs env.

Lemma quiet_sessionIdRef pt w : sessionIdRef (env pt w) = sessionIdRef w.
Proof. apply Hrefs. Qed.
Lemma quiet_currentNote pt w : currentNote (env pt w) = currentNote w.
Proof. apply Hrefs. Qed.
Lemma quiet_currentContent pt w : currentContent (env pt w) = currentContent w.
Proof. apply Hrefs. Qed.
Lemma quiet_sessionHistoryId pt w : sessionHistoryId (env pt w) = sessionHistoryId w.
Proof. apply Hrefs. Qed.
Lemma quiet_saveCount pt w : saveCount (env pt w) = saveCount w.
Proof. apply Hrefs. Qed.
Lemma quiet_state pt w : state (env pt w) = state w.
Proof. apply Hrefs. Qed.
Lemma quiet_placeholderTip pt w : placeholderTip (env pt w) = placeholderTip w.
Proof. apply Hrefs. Qed.
Lemma quiet_store_readonly pt w : store_readonly (env pt w) = store_readonly w.
Proof. apply Hrefs. Qed.
Lemma quiet_store_currentEditingNote pt w :
  store_currentEditingNote (env pt w) = store_currentEditingNote w.
Proof. apply Hrefs. Qed.

(** Rewrite with what [leaves_refs] says, as often as it applies. *)
Ltac rw_refs :=
  repeat (rewrite ?quiet_sessionIdRef, ?quiet_currentNote, ?quiet_currentContent,
            ?quiet_sessionHistoryId, ?quiet_saveCount, ?quiet_state,
            ?quiet_placeholderTip, ?quiet_store_readonly,
            ?quiet_store_currentEditingNote; simpl).

(** X2.  A save that names a note the database no longer has: nothing is
    written, no status is sent, the call returns undefined, and the editor is
    reset: file operations of the current note are cancelled, the title and
    the content of the view are cleared, and, the other tasks leaving the refs
    alone, there is no current note, content or history session left, the save
    counter is 0, the read-only flag is off and, in the default editor, the
    currently-editing pointer is null; the placeholder sent is a tip drawn by
    this reset (lines 183-188 and 146-165). *)
Theorem save_for_missing_note_resets_editor (p : SavePayload) (w : World) :
  editable props w = true ->
  truthy (sp_id p) = true ->
  find_note (sp_id p) w = None ->
  outcome (saveNote props env p w) = Returned None
  /\ written (effects (saveNote props env p w)) = []
  /\ commands_sent (effects (saveNote props env p w))
     = [ClearContent; ClearTags;
        SetPlaceholder (placeholderTip (world (saveNote props env p w)))]
  /\ posted (effects (saveNote props env p w)) = [(sessionIdRef w, EvTitle, Some "")]
  /\ cancelled (effects (saveNote props env p w))
     = (if truthy (currentNote w ≫= note_id)
        then [default "" (currentNote w ≫= note_id)] else [])
  /\ currentNote (world (saveNote props env p w)) = None
  /\ currentContent (world (saveNote props env p w)) = None
  /\ sessionHistoryId (world (saveNote props env p w)) = None
  /\ saveCount (world (saveNote props env p w)) = 0
  /\ store_readonly (world (saveNote props env p w)) = false
  /\ (isDefaultEditor props = true ->
      store_currentEditingNote (world (saveNote props env p w)) = PtrNull)
  /\ exists t,
       placeholderTip (world (saveNote props env p w)) = tipManager_placeholderTip t.
Proof.
  intros Hed Hid Hn.
  unfold saveNote, save_write, reset, find_note in *. run.
  rewrite Hed. simpl.
  destruct (sp_id p) as [i |]; [| discriminate].
  rewrite Hid in *. rewrite Hn, bool_decide_is_Some. simpl.
  exec; rw_refs; repeat split; try reflexivity; try discriminate;
    eexists; reflexivity.
Qed.

(** X3.  The first save of a new note.  The payload names no note, the write
    resolves to a note id and the note can be read back (the other tasks
    leaving the refs and the database alone): the save returns that id, the
    note read back becomes the current note, the save counts, the
    [onNoteCreated] observer is called with the id exactly when one is
    registered, and the title of the created note is posted as the title
    placeholder exactly when the payload had no title (lines 216-227). *)
Theorem first_save_makes_created_note_current
    (p : SavePayload) (w : World) (i : string) (d : DB) (n : Note) :
  editable props w = true ->
  truthy (sp_id p) = false ->
  notes_add (db w) (build_noteData p (history_token p w)) = Some (Some i, d) ->
  i <> "" ->
  notes_note d i = Some n ->
  leaves_db env ->
  outcome (saveNote props env p w) = Returned (Some i)
  /\ added (effects (saveNote props env p w)) = [build_noteData p (history_token p w)]
  /\ currentNote (world (saveNote props env p w)) = Some n
  /\ saveCount (world (saveNote props env p w)) = saveCount w + 1
  /\ created_ids (effects (saveNote props env p w))
     = (if onNoteCreated (state w) then [Some i] else [])
  /\ posted (effects (saveNote props env p w))
     = (if truthy (sp_title p) then []
        else [(sessionIdRef w, EvTitlePlaceholder, Some (note_title n))]).
Proof.
  intros Hed Hid Hadd Hi Hn Hdb.
  assert (truthy (Some i) = true) as Hti
    by (unfold truthy; apply negb_true_iff; now apply String.eqb_neq).
  unfold history_token in *.
  unfold_save. rewrite Hed. simpl. unfold find_note.
  rewrite Hid. simpl.
  replace (match sp_id p with Some _ | _ => None end) with (@None Note)
    by (now destruct (sp_id p)).
  simpl.
  destruct (isContentInvalid (sp_data p)) eqn:Hinv; simpl; rewrite Hadd; simpl;
    rewrite Hti; simpl; rewrite Hdb; simpl; rewrite Hn; simpl; rw_refs;
    rewrite ?Hdb; simpl; rewrite ?Hn; simpl; rw_refs;
    repeat (rw_refs; rewrite ?Hdb, ?truthy_if; simpl; rewrite ?Hn; simpl;
            try congruence; split_cond; simpl);
    rw_refs; repeat split; try reflexivity; try (simpl in *; congruence).
Qed.

Lemma save_counter_cases (p : SavePayload) (w : World) :
  reaches_write props p w = true ->
  (logged (effects (saveNote props env p w)) = true
   /\ saveCount (world (saveNote props env p w)) = saveCount w)
  \/ (logged (effects (saveNote props env p w)) = false
      /\ saveCount (world (saveNote props env p w)) = saveCount w + 1).
Proof.
  assert (forall b : bool, (if b then false else true) = negb b) as Hneg
    by (now intros []).
  unfold_save.
  destruct (editable props w); simpl; [| discriminate].
  unfold find_note.
  destruct (sp_id p) as [i |]; simpl;
    [destruct (truthy (Some i)) eqn:Hi; simpl;
       [destruct (notes_note (db w) i) as [n |]; simpl; [| discriminate];
        intros Hc; apply negb_true_iff in Hc; rewrite Hc; simpl
       | intros _]
    | intros _];
    repeat (rw_refs; try congruence; split_cond; simpl); rw_refs;
    first [ left; split; reflexivity | right; split; reflexivity
          | exfalso; simpl in *; congruence ].
Qed.

(** X4.  The save counter counts the saves that got to the write and did not
    fail: such a save adds one to it, also when the write resolved to no id
    or the session had changed; a save whose write or read-back threw leaves
    it as it was (line 260). *)
Theorem save_counter_counts_unfailed_saves (p : SavePayload) (w : World) :
  reaches_write props p w = true ->
  saveCount (world (saveNote props env p w))
  = if logged (effects (saveNote props env p w)) then saveCount w else saveCount w + 1.
Proof.
  intros H. destruct (save_counter_cases p w H) as [[-> ->] | [-> ->]]; reflexivity.
Qed.

(** ** reset (lines 146-165) *)

(** X9.  [reset] of either kind forgets the note: no current note, no
    content, no history token, the save counter at zero, the editor writable,
    the title of the view emptied under the session token in force, and the
    downloads of the note that was open cancelled if it had an id.  A soft
    reset ([reset(false)]) stops there: it leaves the currently-editing
    pointer and the placeholder tip as they were and sends no placeholder; a
    full reset sends the tip it has just drawn. *)
Theorem reset_forgets_the_note (b : bool) (w : World) :
  outcome (reset props env b w) = Returned tt
  /\ currentNote (world (reset props env b w)) = None
  /\ currentContent (world (reset props env b w)) = None
  /\ sessionHistoryId (world (reset props env b w)) = None
  /\ saveCount (world (reset props env b w)) = 0
  /\ store_readonly (world (reset props env b w)) = false
  /\ posted (effects (reset props env b w)) = [(sessionIdRef w, EvTitle, Some "")]
  /\ cancelled (effects (reset props env b w))
     = (if truthy (currentNote w ≫= note_id)
        then [default "" (currentNote w ≫= note_id)] else [])
  /\ (b = false ->
      store_currentEditingNote (world (reset props env b w)) = store_currentEditingNote w
      /\ placeholderTip (world (reset props env b w)) = placeholderTip w
      /\ commands_sent (effects (reset props env b w)) = [ClearContent; ClearTags])
  /\ (b = true ->
      commands_sent (effects (reset props env b w))
      = [ClearContent; ClearTags;
         SetPlaceholder (placeholderTip (world (reset props env b w)))]
      /\ (isDefaultEditor props = true ->
          store_currentEditingNote (world (reset props env b w)) = PtrNull)
      /\ exists t,
           placeholderTip (world (reset props env b w)) = tipManager_placeholderTip t).
Proof.
  unfold reset. run.
  destruct b; simpl; repeat (split_cond; simpl); rw_refs;
    repeat split; try reflexivity; try discriminate;
    eexists; reflexivity.
Qed.

(** ** loadNote (lines 282-324) and loadImages (lines 326-346) *)

(** X10.  Opening a new note starts a session of its own: the session token
    and the history token are made from one clock reading (the one of the call
    if no note was open), the state variable, the ref and the editor view get
    the same token, no note is current, the editor is writable and marked as
    editing; a note that was open is reset first, which puts the save counter
    back to zero. *)
Theorem new_note_starts_fresh_session (item : Item) (w : World) :
  item_type item = TypeNew ->
  exists t,
    sessionIdRef (world (loadNote props env item w))
    = makeSessionId (Some (item_note item)) t
    /\ sessionHistoryId (world (loadNote props env item w)) = Some t
    /\ (currentNote w = None -> t = now w)
    /\ currentNote (world (loadNote props env item w)) = None
    /\ store_readonly (world (loadNote props env item w)) = false
    /\ currentlyEditing (state (world (loadNote props env item w))) = true
    /\ saveCount (world (loadNote props env item w))
       = (if bool_decide (is_Some (currentNote w)) then 0 else saveCount w)
    /\ commands_sent (effects (loadNote props env item w))
       = (if bool_decide (is_Some (currentNote w))
          then [ClearContent; ClearTags;
                SetPlaceholder (placeholderTip (world (loadNote props env item w)))]
          else [])
         ++ [SetSessionId (makeSessionId (Some (item_note item)) t); Focus]
    /\ outcome (loadNote props env item w) = Returned tt.
Proof.
  intros Hty. unfold loadNote, reset. rewrite Hty. run. rw_refs.
  rewrite !bool_decide_is_Some.
  destruct (currentNote w) as [n |] eqn:Hn; simpl.
  - repeat (rw_refs; split_cond; simpl); rw_refs;
      eexists; repeat split; try reflexivity; try discriminate.
  - rw_refs. eexists; repeat split; try reflexivity; try assumption.
Qed.

(** X11.  Opening a stored note that is forced, or is not the note already
    open, loads it under a session of its own: the note becomes the current
    note, its content the current content (the content the item carries, or
    for a note without content that is not locked what [db.content.raw]
    gives), the read-only flag is the note's, the currently-editing pointer
    of the default editor is its id.  The title and the content are posted
    under the new session token, which the ref, the state variable and the
    view all get; only the emptied title of a note that was open goes out
    under the old one.  An image download is scheduled 300 later if the note
    has an id. *)
Theorem open_note_loads_under_new_session (item : Item) (w : World) :
  item_type item = TypeNote ->
  item_forced item = true \/ currentNote w ≫= note_id <> note_id (item_note item) ->
  leaves_db env ->
  leaves_timers env ->
  exists t,
    sessionIdRef (world (loadNote props env item w))
    = makeSessionId (Some (item_note item)) t
    /\ sessionHistoryId (world (loadNote props env item w)) = Some t
    /\ currentNote (world (loadNote props env item w)) = Some (item_note item)
    /\ currentContent (world (loadNote props env item w))
       = (if note_locked (item_note item)
             || bool_decide (is_Some (note_content (item_note item)))
          then Some (mkContent (note_content (item_note item) ≫= content_data)
                       (match content_type <$> note_content (item_note item) with
                        | Some ty => if String.eqb ty "" then "tiny" else ty
                        | None => "tiny"
                        end) false)
          else content_raw (db w) (note_contentId (item_note item)))
    /\ store_readonly (world (loadNote props env item w)) = note_readonly (item_note item)
    /\ (isDefaultEditor props = true ->
        store_currentEditingNote (world (loadNote props env item w))
        = pointer_of (note_id (item_note item)))
    /\ posted (effects (loadNote props env item w))
       = (if bool_decide (is_Some (currentNote w))
          then [(sessionIdRef w, EvTitle, Some "")] else [])
         ++ [(makeSessionId (Some (item_note item)) t, EvTitle,
              Some (note_title (item_note item)));
             (makeSessionId (Some (item_note item)) t, EvHtml,
              currentContent (world (loadNote props env item w)) ≫= content_data)]
    /\ saveCount (world (loadNote props env item w))
       = (if bool_decide (is_Some (currentNote w)) then 0 else saveCount w)
    /\ pending (timers (world (loadNote props env item w)))
       = pending (timers w)
         ++ (if truthy (note_id (item_note item))
             then [mkTimer (next_handle (timers w))
                     (now (world (loadNote props env item w)) + 300) JobLoadImages]
             else []).
Proof.
  intros Hty Hopen Hdb Htm.
  assert (negb (item_forced item)
          && opt_string_eqb (currentNote w ≫= note_id) (note_id (item_note item)) = false)
    as Hcond.
  { apply andb_false_iff. destruct Hopen as [-> | Hne]; [now left | right].
    destruct (opt_string_eqb _ _) eqn:E; [| reflexivity].
    apply opt_string_eqb_eq in E. contradiction. }
  unfold loadNote, loadImages, loadContent, overlay, reset. rewrite Hty. run. rw_refs.
  rewrite Hcond. simpl. rewrite !bool_decide_is_Some.
  destruct (currentNote w) as [n |] eqn:Hn; simpl;
    destruct (isDefaultEditor props) eqn:Hde; simpl;
    destruct (note_locked (item_note item)) eqn:Hl; simpl;
    try destruct (note_content (item_note item)) as [ct |] eqn:Hct; simpl;
    repeat (rw_refs; rewrite ?Hdb, ?Htm; simpl; split_cond; simpl);
    repeat (progress (rw_refs; rewrite ?Hdb, ?Htm; simpl));
    eexists; repeat split; rewrite ?app_nil_r; try reflexivity; try discriminate;
    try (simpl in *; congruence).
Qed.

(** X12.  Closing the note before the 300 of [loadImages] have passed makes
    the pending download a no-op: run on the world a [reset] leaves, the
    callback of the timer asks for no download and changes nothing. *)
Theorem image_download_after_reset_is_noop (b : bool) (w : World) :
  run_job props env JobLoadImages (world (reset props env b w))
  = mkRun (Returned tt) (world (reset props env b w)) [].
Proof.
  assert (currentNote (world (reset props env b w)) = None) as Hnone.
  { unfold reset. run.
    destruct b; simpl; repeat (split_cond; simpl); rw_refs; reflexivity. }
  unfold run_job, loadImages_callback. run. now rewrite Hnone.
Qed.

(** ** restoreEditorState (lines 402-433) *)

(** X13.  [restoreEditorState] never leaves the [isRestoringState] flag set,
    whatever the stored blob.  When it restores, it marks the editor as
    editing and not moved away, shows the loading overlay of the note, asks
    for the editor page unless the device is a tablet, removes the blob and
    hides the editor overlay, in this order; when it does not, it has no
    effect and touches no other flag. *)
Theorem restore_never_leaves_flag_set (w : World) :
  isRestoringState (state (world (restoreEditorState props env w))) = false
  /\ outcome (restoreEditorState props env w) = Returned tt
  /\ (forall a n,
        mmkv_appState w = Some a -> as_note a = Some n ->
        restorable a (now (env AwGetItem w)) = true ->
        currentlyEditing (state (world (restoreEditorState props env w))) = true
        /\ movedAway (state (world (restoreEditorState props env w))) = false
        /\ effects (restoreEditorState props env w)
           = [ESendEvent ("loadingNote" +:+ editorId props)
                (PayloadNote (default n (currentNote w)))]
             ++ (if isTab then [] else [EGoToPage 1])
             ++ [ERemoveItem "appState";
                 ESendEvent "load_overlay" (PayloadText "hide_editor")])
  /\ ((forall a, mmkv_appState w = Some a ->
                 restorable a (now (env AwGetItem w)) = false) ->
      effects (restoreEditorState props env w) = []
      /\ currentlyEditing (state (world (restoreEditorState props env w)))
         = currentlyEditing (state w)
      /\ movedAway (state (world (restoreEditorState props env w))) = movedAway (state w)).
Proof.
  unfold restoreEditorState, overlay. run.
  destruct (mmkv_appState w) as [a |] eqn:Ha; simpl.
  - destruct (restorable a (now (env AwGetItem w))) eqn:Hr; simpl.
    + split; [now destruct isTab |]. split; [now destruct isTab |]. split.
      * intros a' n Ha' Hn _. inversion Ha'; subst a'. rewrite Hn.
        rw_refs. destruct isTab; simpl; rw_refs;
          destruct (currentNote w); repeat split; reflexivity.
      * intros Hno. specialize (Hno a eq_refl). congruence.
    + rw_refs. repeat split; try reflexivity; congruence.
  - rw_refs. repeat split; try reflexivity; discriminate.
Qed.

(** ** The currently-editing pointer of the editor store *)

(** X14.  An editor that is not the default one (its [editorId] is not
    empty) never writes the currently-editing pointer of the shared store:
    not when it saves, not when it opens a note, not when it resets; and its
    saves start no timer. *)
Theorem secondary_editor_leaves_editing_pointer
    (p : SavePayload) (item : Item) (b : bool) (w : World) :
  isDefaultEditor props = false ->
  store_currentEditingNote (world (saveNote props env p w)) = store_currentEditingNote w
  /\ store_currentEditingNote (world (loadNote props env item w))
     = store_currentEditingNote w
  /\ store_currentEditingNote (world (reset props env b w)) = store_currentEditingNote w
  /\ (leaves_timers env -> timers (world (saveNote props env p w)) = timers w).
Proof.
  intros Hde. split; [| split; [| split]].
  - unfold_save. rewrite Hde. simpl.
    repeat (rw_refs; rewrite ?andb_false_r; simpl; split_cond; simpl); rw_refs;
      reflexivity.
  - unfold loadNote, loadImages, loadContent, overlay, reset. run. rewrite Hde. simpl.
    repeat (rw_refs; split_cond; simpl); rw_refs; reflexivity.
  - unfold reset. run. rewrite Hde. simpl.
    repeat (rw_refs; split_cond; simpl); rw_refs; reflexivity.
  - intros Htm. unfold_save. rewrite Hde. simpl.
    repeat (rw_refs; rewrite ?Htm, ?andb_false_r; simpl; split_cond; simpl);
      repeat (progress (rw_refs; rewrite ?Htm; simpl)); reflexivity.
Qed.

(** X15.  In the default editor, the first save of a new note does not write
    the currently-editing pointer itself: it leaves it as it was and starts a
    timer, and the pointer becomes the id of the created note when that timer
    fires. *)
Theorem first_save_defers_pointer_update
    (p : SavePayload) (w : World) (i : string) (d : DB) (n : Note) :
  editable props w = true ->
  truthy (sp_id p) = false ->
  notes_add (db w) (build_noteData p (history_token p w)) = Some (Some i, d) ->
  i <> "" ->
  notes_note d i = Some n ->
  leaves_db env ->
  leaves_timers env ->
  isDefaultEditor props = true ->
  store_currentEditingNote w <> PtrNote i ->
  store_currentEditingNote (world (saveNote props env p w)) = store_currentEditingNote w
  /\ (exists t,
        pending (timers (world (saveNote props env p w)))
        = pending (timers w)
          ++ [mkTimer (next_handle (timers w)) t (JobSetCurrentlyEditing (Some i))])
  /\ forall w', store_currentEditingNote
                  (world (run_job props env (JobSetCurrentlyEditing (Some i)) w'))
                = PtrNote i.
Proof.
  intros Hed Hid Hadd Hi Hn Hdb Htm Hde Hptr.
  assert (truthy (Some i) = true) as Hti
    by (unfold truthy; apply negb_true_iff; now apply String.eqb_neq).
  assert (pointer_eqb (store_currentEditingNote w) (PtrNote i) = false) as Hneq.
  { destruct (store_currentEditingNote w) as [| | j]; simpl; try reflexivity.
    destruct (String.eqb j i) eqn:E; [| reflexivity].
    apply String.eqb_eq in E. subst j. now contradiction Hptr. }
  split; [| split].
  - unfold history_token in *.
    unfold_save. rewrite Hed. simpl. unfold find_note.
    rewrite Hid. simpl.
    replace (match sp_id p with Some _ | _ => None end) with (@None Note)
      by (now destruct (sp_id p)).
    simpl.
    destruct (isContentInvalid (sp_data p)) eqn:Hinv; simpl; rewrite Hadd; simpl;
      rewrite Hti; simpl; rewrite Hdb; simpl; rewrite Hn; simpl;
      repeat (rw_refs; rewrite ?Hdb, ?Htm, ?truthy_if, ?Hneq, ?Hde; simpl;
              rewrite ?Hn; simpl; try congruence; split_cond; simpl);
      rw_refs; try reflexivity; try (simpl in *; congruence).
  - unfold history_token in *.
    unfold_save. rewrite Hed. simpl. unfold find_note.
    rewrite Hid. simpl.
    replace (match sp_id p with Some _ | _ => None end) with (@None Note)
      by (now destruct (sp_id p)).
    simpl.
    destruct (isContentInvalid (sp_data p)) eqn:Hinv; simpl; rewrite Hadd; simpl;
      rewrite Hti; simpl; rewrite Hdb; simpl; rewrite Hn; simpl;
      repeat (rw_refs; rewrite ?Hdb, ?Htm, ?truthy_if, ?Hneq, ?Hde; simpl;
              rewrite ?Hn; simpl; try congruence; split_cond; simpl);
      repeat (progress (rw_refs; rewrite ?Hdb, ?Htm; simpl));
      try (eexists; reflexivity); try (simpl in *; congruence).
  - intros w'. unfold run_job. rewrite Hti. reflexivity.
Qed.

(** ** The history-session token of valid content (lines 193-203) *)

(** X16.  A save of valid content that gets to the write leaves the hook's
    history-session token as it was and writes the token of its payload: the
    one captured when the change was typed, whatever the hook's token is by
    the time the save runs. *)
Theorem valid_content_keeps_history_session (p : SavePayload) (w : World) :
  isContentInvalid (sp_data p) = false ->
  reaches_write props p w = true ->
  sessionHistoryId (world (saveNote props env p w)) = sessionHistoryId w
  /\ exists nd,
       written (effects (saveNote props env p w)) = [nd]
       /\ nd_sessionId nd = session_field (sp_sessionHistoryId p).
Proof.
  intros Hval Hreach. split.
  - revert Hreach. unfold_save. rewrite Hval.
    destruct (editable props w); simpl; [| discriminate].
    unfold find_note.
    destruct (sp_id p) as [i |]; simpl;
      [destruct (truthy (Some i)) eqn:Hi; simpl;
         [destruct (notes_note (db w) i) as [n |]; simpl; [| discriminate];
          intros Hc; apply negb_true_iff in Hc; rewrite Hc; simpl
         | intros _]
      | intros _];
      repeat (rw_refs; try congruence; split_cond; simpl); rw_refs;
      try reflexivity; try (simpl in *; congruence).
  - rewrite saveNote_written, Hreach.
    eexists. split; [reflexivity |].
    unfold history_token.
    destruct (from_option note_locked false (find_note (sp_id p) w)); simpl;
      now rewrite Hval.
Qed.

End Quiet.

(** X5.  A save that failed (an exception was caught and logged, lines
    263-265) returns undefined and has sent no status update and no refresh
    broadcast; and a save logs at most one error. *)
Theorem failed_save_returns_undefined (p : SavePayload) (w : World) :
  logged (effects (saveNote props env p w)) = true ->
  outcome (saveNote props env p w) = Returned None
  /\ status_sent (effects (saveNote props env p w)) = false
  /\ refresh_sent (effects (saveNote props env p w)) = false.
Proof.
  unfold_save.
  repeat (split_cond; simpl; try discriminate);
    intros H; try discriminate H; repeat split; reflexivity.
Qed.

(** X6.  The [onNoteCreated] observer is never called by a save whose payload
    names a note, and by no save more than once (lines 218-220). *)
Theorem note_created_only_without_id (p : SavePayload) (w : World) :
  (truthy (sp_id p) = true -> created_ids (effects (saveNote props env p w)) = [])
  /\ (length (created_ids (effects (saveNote props env p w))) <= 1)%nat.
Proof.
  unfold_save. unfold find_note.
  destruct (sp_id p) as [i |]; simpl.
  - destruct (truthy (Some i)) eqn:Hi; simpl;
      repeat (split_cond; simpl; try discriminate);
      split; try discriminate; try reflexivity; simpl; lia.
  - repeat (split_cond; simpl; try discriminate);
      split; try discriminate; try reflexivity; simpl; lia.
Qed.

(** ** Timers (lines 138-144 and 355-400) *)

(** X7.  The timers stay well formed.  No timers at all are; and from timers
    that are, [withTimer], a timer firing and [saveContent] leave every handle
    in use below the next one to allocate, no two pending timers with the
    same handle and no two names holding the same handle.  So the handle
    stored under a name never cancels the timer of another name. *)
Theorem withTimer_keeps_timers_wf (id : string) (fn : Job) (d t : Z) (tm : Timers) :
  timers_wf no_timers
  /\ (timers_wf tm ->
      timers_wf (withTimer id fn d t tm)
      /\ timers_wf (expire t tm)
      /\ forall sid c (w : World),
           timers w = tm -> timers_wf (timers (world (saveContent sid c w)))).
Proof.
  split; [exact no_timers_wf |].
  intros Hwf. split; [now apply withTimer_wf |]. split; [now apply expire_wf |].
  intros sid c w Hw. subst tm.
  rewrite saveContent_world.
  destruct (change_isContent c); simpl; now apply withTimer_wf.
Qed.

(** X8.  Debounce is per note.  After [saveContent], the timer pending under
    the name of the current note (or under newnote) is the new one alone, due
    500 after the clock reading, with the payload built from the change; the
    timers pending under every other name are the ones that were pending
    before: a change typed into one note never cancels the pending save of
    another. *)
Theorem saveContent_debounces_per_note (sid : string) (c : Change) (w : World) :
  timers_wf (timers w) ->
  pending_for (timer_key w) (timers (world (saveContent sid c w)))
  = [mkTimer (next_handle (timers w)) (now w + 500)
       (JobSave (make_params sid c w) sid)]
  /\ forall k, k <> timer_key w ->
       pending_for k (timers (world (saveContent sid c w))) = pending_for k (timers w).
Proof.
  intros Hwf. rewrite saveContent_timers.
  now apply withTimer_pending_for.
Qed.

End Properties.

(** ** The properties on the sample persistence module *)

Import Sample.

#[local] Existing Instance sample_persistence.
#[local] Existing Instance sample_helpers.

(** A save of note a under token a_session, during whose write the user opens
    note b: no status update. *)
Lemma stale_save_sends_no_status_witness :
  status_sent
    (effects (saveNote props_default env_switch rename_a world_a)) = false.
Proof.
  apply (@stale_save_sends_no_status sample_persistence sample_helpers).
  vm_compute. intros H. discriminate H.
Defined.

(** The same save with no other task running: the status is updated. *)
Example fresh_save_sends_status :
  status_sent
    (effects (saveNote props_default env_quiet rename_a world_a)) = true.
Proof. vm_compute. reflexivity. Qed.

(** C2 fails as stated: a change typed into note a under session a_session,
    whose timer fires after the user opened note b (session b_session), is
    saved under the id of note a, not under the id of the now-current note;
    the call of [db.notes.add] names note a. *)
Lemma stale_payload_keeps_its_note_id :
  sp_sessionId params_typed_in_a <> sessionIdRef (world_on (Some note_b) "b_session")
  /\ currentNote (world_on (Some note_b) "b_session") = Some note_b
  /\ sp_id (resolve_params params_typed_in_a "a_session"
              (world_on (Some note_b) "b_session")) = Some "a"
  /\ sp_id (resolve_params params_typed_in_a "a_session"
              (world_on (Some note_b) "b_session")) <> note_id note_b
  /\ nd_id <$> added (effects (run_job props_default
                                 env_quiet (JobSave params_typed_in_a "a_session")
                                 (world_on (Some note_b) "b_session")))
     = [Some "a"].
Proof.
  repeat split; try (intros H; discriminate H); vm_compute; reflexivity.
Qed.

(** The same callback through the theorem: the payload [saveNote] gets is the
    captured one, and the one update written names note a. *)
Lemma callback_resolves_missing_id_only_witness :
  exists p',
    effects (run_job props_default env_quiet (JobSave params_typed_in_a "a_session")
               (world_on (Some note_b) "b_session"))
    = effects (saveNote props_default env_quiet p' (world_on (Some note_b) "b_session"))
    /\ p' = params_typed_in_a
    /\ exists nd,
         written (effects (run_job props_default env_quiet
                             (JobSave params_typed_in_a "a_session")
                             (world_on (Some note_b) "b_session"))) = [nd]
         /\ nd_id nd = Some "a".
Proof.
  destruct (@callback_resolves_missing_id_only sample_persistence sample_helpers
              props_default env_quiet "a_session" (typed "<p>typed in a</p>")
              (world_on (Some note_a) "a_session") (world_on (Some note_b) "b_session"))
    as (_ & _ & Hsave).
  destruct (Hsave eq_refl) as (p' & _ & Heff & _ & Hid & _ & _ & Hone & _).
  exists p'. split; [exact Heff |].
  pose proof (Hid eq_refl) as Hp. split; [exact Hp |].
  assert (reaches_write props_default p' (world_on (Some note_b) "b_session") = true)
    as Hreach by (rewrite Hp; vm_compute; reflexivity).
  destruct (Hone Hreach) as (nd & Hw & Hnd).
  exists nd. split; [exact Hw |]. rewrite Hnd, Hp. reflexivity.
Defined.

(** A draft without note id, fired in the session it was typed under after
    the first save created note0: it is saved under note0. *)
Example draft_fired_in_its_session_takes_the_current_id :
  sp_id draft_typed = None
  /\ nd_id <$> added (effects (run_job props_default env_quiet
                                 (JobSave draft_typed "new_session")
                                 (world (saveNote props_default env_quiet new_draft
                                           world_new))))
     = [Some "note0"].
Proof. split; vm_compute; reflexivity. Qed.

(** What the comparison of line 386 lets through: it compares the token of
    the payload with the copy of it the callback closed over, so it holds
    whatever session is active.  The same draft fired after the user opened
    note b under another session is written into note b. *)
Example draft_fired_after_switch_is_written_into_open_note :
  sp_sessionId draft_typed <> sessionIdRef (world_on (Some note_b) "b_session")
  /\ nd_id <$> added (effects (run_job props_default env_quiet
                                 (JobSave draft_typed "new_session")
                                 (world_on (Some note_b) "b_session")))
     = [Some "b"].
Proof. split; [intros H; discriminate H | vm_compute; reflexivity]. Qed.

(** A locked note saved from an editable editor: no call of [db.notes.add],
    one call of [db.vault.save], which carries the content identifier of the
    stored note. *)
Lemma locked_note_saved_through_vault_witness :
  added (effects (saveNote props_default env_quiet save_v
                    (world_on (Some note_v) "v_session"))) = []
  /\ (forall nd,
        nd ∈ vault_saved (effects (saveNote props_default env_quiet save_v
                                     (world_on (Some note_v) "v_session"))) ->
        nd_contentId nd = note_contentId note_v /\ nd_id nd = sp_id save_v)
  /\ (exists nd,
        vault_saved (effects (saveNote props_default env_quiet save_v
                                (world_on (Some note_v) "v_session"))) = [nd]).
Proof.
  destruct (@locked_note_saved_through_vault sample_persistence sample_helpers
              props_default env_quiet save_v (world_on (Some note_v) "v_session")
              note_v eq_refl eq_refl) as (Hadd & Hvault & Hone).
  split; [exact Hadd |]. split; [exact Hvault |].
  apply Hone. reflexivity.
Defined.

Example locked_note_update :
  effects (saveNote props_default env_quiet save_v
             (world_on (Some note_v) "v_session"))
  = [EVaultSave (mkNoteData (Some "v") (SessToken 1000) (Some "Vault 2")
                   (Some ("<p>secret</p>", "tiptap")) (Some "cv"));
     ECommand (SetStatus "31" "Saved");
     EQueueRoutesForUpdate refresh_routes].
Proof. vm_compute. reflexivity. Qed.

(** No other task runs: no timer is started during the awaits. *)
Lemma env_quiet_only_starts_timers : only_starts_timers env_quiet.
Proof. intros pt w. apply timers_grow_refl. Qed.

(** The example of the spec in note a, just opened: notifications at 0, 100,
    200 and 490, with the image timer of the open still pending, due at 100.
    That timer fires while the notifications arrive; of the four timers they
    start, the one of the last alone is pending afterwards, it fires from 990
    on, and its callback is one call of [saveNote]. *)
Lemma debounce_runs_last_callback_witness :
  (forall x,
      x ∈ fired_in (fst (feed props_default env_quiet (sessionIdRef world_opened_a)
                           keystrokes world_opened_a)) ->
      timer_handle x ∉ started_in (fst (feed props_default env_quiet
                                          (sessionIdRef world_opened_a)
                                          keystrokes world_opened_a)))
  /\ pending_for "a" (timers world_after_keystrokes) = [mkTimer 4 990 last_keystroke]
  /\ (forall T,
        mkTimer 4 990 last_keystroke
        ∈ fst (fire props_default env_quiet T world_after_keystrokes) <-> 990 <= T)
  /\ exists p',
       run_job props_default env_quiet last_keystroke world_at_990
       = bind (saveNote props_default env_quiet p') (fun _ => ret tt) world_at_990
       /\ sp_data p' = Some "<p>abcd</p>".
Proof.
  assert (timers_wf (timers world_opened_a)) as Hwf
    by (exact (setTimeout_wf JobLoadImages 300 (-200) no_timers no_timers_wf)).
  assert (quiet_run props_default env_quiet (sessionIdRef world_opened_a) "a" None
            keystrokes world_opened_a) as Hquiet
    by (vm_compute; repeat split).
  destruct (@debounce_runs_last_callback sample_persistence sample_helpers props_default
              env_quiet env_quiet_only_starts_timers (sessionIdRef world_opened_a) "a"
              0 (typed "<p>a</p>") keystrokes_after_first world_opened_a
              eq_refl Hwf Hquiet)
    as (Hfired & Hlast & _ & Hdue & _ & _ & Hsave).
  split; [exact Hfired |]. split; [exact Hlast |]. split; [exact Hdue |].
  destruct (Hsave world_at_990) as (p' & Hrun & Hp').
  exists p'. split; [exact Hrun |]. rewrite Hp'. reflexivity.
Defined.

(** What fired while the notifications arrived, and the handles of the timers
    they started. *)
Example debounce_example_fired :
  fired_in (fst (feed props_default env_quiet (sessionIdRef world_opened_a)
                   keystrokes world_opened_a)) = [mkTimer 0 100 JobLoadImages]
  /\ started_in (fst (feed props_default env_quiet (sessionIdRef world_opened_a)
                        keystrokes world_opened_a)) = [1; 2; 3; 4]%nat
  /\ pending (timers world_after_keystrokes) = [mkTimer 4 990 last_keystroke].
Proof. repeat split; vm_compute; reflexivity. Qed.

(** The one save of the example: the payload typed at 490 is written. *)
Example debounce_example_save :
  written (effects (run_job props_default env_quiet last_keystroke world_at_990))
  = [mkNoteData (Some "a") (SessToken (-200)) None (Some ("<p>abcd</p>", "tiptap")) None].
Proof. vm_compute. reflexivity. Qed.

(** The edge case of the same notifications in an editor with an [onChange]
    observer: the one callback hands the content to the observer and writes
    nothing. *)
Example observer_mode_forwards_content :
  effects (run_job props_preview env_quiet last_keystroke world_at_990)
  = [EOnChange "<p>abcd</p>"]
  /\ written (effects (run_job props_preview env_quiet last_keystroke world_at_990)) = [].
Proof. split; vm_compute; reflexivity. Qed.


(** A first save of note a that renames it.  When the user opens note b
    during the write, no refresh; with no other task running, a refresh,
    because the save counter is below 2. *)
Lemma refresh_under_session_guard_witness :
  refresh_sent (effects (saveNote props_default env_switch rename_a world_a)) = false
  /\ refresh_sent (effects (saveNote props_default env_quiet rename_a world_a)) = true.
Proof.
  split.
  - apply (@refresh_under_session_guard sample_persistence sample_helpers props_default
             env_switch rename_a world_a).
    vm_compute. intros H. discriminate H.
  - apply (@refresh_under_session_guard sample_persistence sample_helpers props_default
             env_quiet rename_a world_a).
    split; [reflexivity |].
    exists (Some "a"), note_a_renamed.
    split; [vm_compute; reflexivity |]. split; [reflexivity |].
    split; [vm_compute; reflexivity |]. split; [vm_compute; reflexivity |].
    left. vm_compute. reflexivity.
Defined.

(** A first save under the session it was typed in, with a persistence
    module whose upsert resolves to no id: the save completes and counts, and
    no refresh is broadcast, although the save counter is below 2. *)
Example save_without_id_broadcasts_no_refresh :
  outcome (@save_write mute_persistence sample_helpers props_default mute_env
             new_draft mute_world) = Returned (Some None)
  /\ sessionIdRef (world (@saveNote mute_persistence sample_helpers props_default mute_env
                            new_draft mute_world)) = sp_sessionId new_draft
  /\ saveCount (world (@saveNote mute_persistence sample_helpers props_default mute_env
                         new_draft mute_world)) = 1
  /\ refresh_sent (effects (@saveNote mute_persistence sample_helpers props_default mute_env
                              new_draft mute_world)) = false.
Proof. repeat split; vm_compute; reflexivity. Qed.

(** The third save of a session, with the title and the preview text of the
    cached note: no refresh.  The same save as the first of a session: a
    refresh. *)
Example third_save_unchanged_no_refresh :
  refresh_sent
    (effects (saveNote props_default env_quiet
                (payload None (Some "a") (Some "alpha text") "a_session")
                (set_saveCount 2 world_a))) = false
  /\ refresh_sent
       (effects (saveNote props_default env_quiet
                   (payload None (Some "a") (Some "alpha text") "a_session") world_a)) = true
  /\ refresh_sent
       (effects (saveNote props_default env_quiet
                   (payload (Some "Alpha 2") (Some "a") (Some "alpha text") "a_session")
                   (set_saveCount 2 world_a))) = true.
Proof. repeat split; vm_compute; reflexivity. Qed.

(** C5 fails as stated: the first save of a session (save counter 0), during
    whose write the user opens note b, completes (the write is made, the save
    returns the note id and counts as a save) and broadcasts no refresh,
    although the counter is below 2 and the cached title differs from the
    saved one. *)
Lemma stale_first_save_broadcasts_no_refresh :
  saveCount world_a < 2
  /\ outcome (saveNote props_default env_switch rename_a world_a) = Returned (Some "a")
  /\ written (effects (saveNote props_default env_switch rename_a world_a)) <> []
  /\ saveCount (world (saveNote props_default env_switch rename_a world_a)) = 1
  /\ note_title <$>
       currentNote (world (saveNote props_default
                             env_switch rename_a world_a))
     <> Some "Alpha 2"
  /\ refresh_sent
       (effects (saveNote props_default env_switch rename_a world_a)) = false.
Proof.
  split; [reflexivity |].
  split; [vm_compute; reflexivity |].
  split; [vm_compute; intros H; discriminate H |].
  split; [vm_compute; reflexivity |].
  split; [vm_compute; intros H; discriminate H |].
  vm_compute; reflexivity.
Qed.


(** The two saves, run: the empty save writes a null token, the
    save of real content that follows writes the token minted at the empty
    save (5000), not the one from before (1000). *)
Example empty_then_real_content :
  nd_sessionId <$>
    written (effects (saveNote props_default env_clock empty_a world_a))
  = [SessNull]
  /\ nd_sessionId <$>
       written
         (effects
            (saveNote props_default env_clock
               (make_params "a_session" (typed "<p>real</p>")
                  (world (saveNote props_default
                            env_clock empty_a world_a)))
               (world (saveNote props_default
                         env_clock empty_a world_a))))
     = [SessToken 5000].
Proof. split; vm_compute; reflexivity. Qed.

(** Opening note a while it is the current note; and opening note a in an
    empty editor, then opening it again. *)
Lemma reopen_same_note_is_noop_witness :
  loadNote props_default env_clock open_a world_a
  = mkRun (Returned tt) (set_state (set_currentlyEditing true (state world_a)) world_a) []
  /\ loadNote props_default env_clock open_a
       (world (loadNote props_default env_clock open_a (world_on None "session")))
     = mkRun (Returned tt)
         (world (loadNote props_default env_clock open_a (world_on None "session"))) [].
Proof.
  split.
  - destruct (@reopen_same_note_is_noop sample_persistence sample_helpers props_default
                env_clock open_a world_a eq_refl eq_refl) as [Hsame _].
    destruct (Hsame eq_refl) as [Hrun _]. exact Hrun.
  - destruct (@reopen_same_note_is_noop sample_persistence sample_helpers props_default
                env_clock open_a (world_on None "session") eq_refl eq_refl)
      as [_ Hagain].
    apply Hagain; intros pt w'; reflexivity.
Defined.

(** The first open talks to the editor view; the second does not. *)
Example first_open_then_second :
  effects (loadNote props_default env_clock open_a (world_on None "session"))
  = [ESendEvent "loadingNote" (PayloadNote note_a);
     EContentRaw (Some "ca");
     ESetSessionIdState "a_session_5002";
     ECommand (SetSessionId "a_session_5002");
     ECommand (SetStatus "10" "Saved");
     EPost "a_session_5002" EvTitle (Some "Alpha");
     EPost "a_session_5002" EvHtml None;
     ECommand (SetTags (Some note_a));
     ECommand SetSettings;
     ESendEvent "loadingNote" PayloadFalse]
  /\ effects (loadNote props_default env_clock open_a
                (world (loadNote props_default env_clock open_a (world_on None "session"))))
     = [].
Proof. split; vm_compute; reflexivity. Qed.

(** The boundary of the freshness window, for a blob that records an edit of
    note a: written 3,600,001 ms before the clock reading it is not
    restorable, written 3,599,999 ms before it is. *)
Example restore_freshness_boundary (t : Z) :
  restorable (mkAppState true (Some note_a) (t - 3600001)) t = false
  /\ restorable (mkAppState true (Some note_a) (t - 3599999)) t = true
  /\ restorable (mkAppState true (Some note_a) (t - 3600000)) t = false
  /\ restorable (mkAppState false (Some note_a) (t - 3599999)) t = false
  /\ restorable (mkAppState true (Some note_v) (t - 3599999)) t = false.
Proof.
  unfold restorable. simpl. repeat split.
  - apply Z.ltb_ge. lia.
  - apply Z.ltb_lt. lia.
  - apply Z.ltb_ge. lia.
Qed.

(** A blob written 3,599,999 ms ago is replayed once: the handler schedules
    the load of note a and removes the blob; run again, it schedules nothing
    more. *)
Example restore_once :
  due 10000000
    (timers (world (restoreEditorState props_default
                      env_quiet
                      (set_mmkv_appState
                         (Some (mkAppState true (Some note_a) (5000 - 3599999)))
                         (world_on None "session")))))
  = [JobLoadNote (Some note_a)]
  /\ due 10000000
       (timers (world (restoreEditorState props_default
                         env_quiet
                         (world (restoreEditorState
                                   props_default env_quiet
                                   (set_mmkv_appState
                                      (Some (mkAppState true (Some note_a) (5000 - 3599999)))
                                      (world_on None "session")))))))
     = [JobLoadNote (Some note_a)]
  /\ due 10000000
       (timers (world (restoreEditorState props_default
                         env_quiet
                         (set_mmkv_appState
                            (Some (mkAppState true (Some note_a) (5000 - 3600001)))
                            (world_on None "session")))))
     = [].
Proof. repeat split; vm_compute; reflexivity. Qed.

(** A save into the conflicted note x. *)
Lemma saveNote_early_exit_is_noop_witness :
  saveNote props_default env_switch
    (payload (Some "Mine") (Some "x") (Some "<p>mine</p>") "x_session")
    (world_on (Some note_x) "x_session")
  = mkRun (Returned None) (world_on (Some note_x) "x_session") [].
Proof.
  apply (@saveNote_early_exit_is_noop sample_persistence sample_helpers props_default
           env_switch).
  right. right. right. exists note_x. split; reflexivity.
Defined.

(** The three read-only exits, run: a read-only editor, the read-only flag of
    the store, a read-only current note. *)
Example read_only_saves_are_noops :
  saveNote (mkProps "" true false) env_switch
    (payload (Some "T") (Some "a") (Some "<p>d</p>") "a_session") world_a
  = mkRun (Returned None) world_a []
  /\ saveNote props_default env_switch
       (payload (Some "T") (Some "a") (Some "<p>d</p>") "a_session")
       (setReadonly true world_a)
     = mkRun (Returned None) (setReadonly true world_a) []
  /\ saveNote props_default env_switch
       (payload (Some "T") (Some "a") (Some "<p>d</p>") "a_session")
       (world_on (Some (mkNote (Some "a") "Alpha" None false false true (Some "ca") None 10))
          "a_session")
     = mkRun (Returned None)
         (world_on (Some (mkNote (Some "a") "Alpha" None false false true (Some "ca") None 10))
            "a_session") [].
Proof. repeat split; vm_compute; reflexivity. Qed.

(** The sample persistence module keeps the titles an update does not name. *)
Lemma sample_keeps_titles : keeps_titles.
Proof.
  split.
  - intros d nd r d' i n Ht Hadd Hn. simpl in *. unfold upsert in Hadd.
    rewrite Ht in Hadd. simpl in Hadd. inversion Hadd; subst; clear Hadd. simpl.
    set (id := if truthy (nd_id nd) then default "" (nd_id nd) else fresh_id d) in *.
    destruct (decide (id = i)) as [-> | Hne].
    + rewrite lookup_insert_eq. simpl. now rewrite Hn.
    + rewrite lookup_insert_ne by exact Hne. now rewrite Hn.
  - intros d nd d' i n Ht Hsave Hn. simpl in *. unfold vaultSave in Hsave.
    destruct (nd_id nd) as [id |] eqn:Hid; simpl in Hsave; [| discriminate].
    destruct (notes d !! id) as [old |] eqn:Hold; [| discriminate].
    destruct (note_locked old); [| discriminate].
    rewrite Ht in Hsave. simpl in Hsave. inversion Hsave; subst; clear Hsave. simpl.
    destruct (decide (id = i)) as [-> | Hne].
    + rewrite lookup_insert_eq. simpl. congruence.
    + rewrite lookup_insert_ne by exact Hne. now rewrite Hn.
Qed.

(** A save of note a whose payload has the empty string for a title: the
    update has no title field and the stored title stays "Alpha". *)
Lemma empty_title_is_not_written_witness :
  (forall nd,
      nd ∈ written
             (effects (saveNote props_default env_clock untitled_a world_a)) ->
      nd_title nd = None)
  /\ note_title <$>
       notes_note
         (db (world (saveNote props_default env_clock untitled_a world_a))) "a"
     = Some (note_title note_a).
Proof.
  destruct (@empty_title_is_not_written sample_persistence sample_helpers props_default
              env_clock untitled_a world_a eq_refl) as [Hnone Hkept].
  split; [exact Hnone |].
  apply Hkept.
  - exact sample_keeps_titles.
  - intros pt w'. reflexivity.
  - reflexivity.
Defined.

(** The same save, run: the content is written, the title is not. *)
Example empty_title_update :
  written (effects (saveNote props_default env_clock untitled_a world_a))
  = [mkNoteData (Some "a") (SessToken 1000) None (Some ("<p>body</p>", "tiptap")) None].
Proof. vm_compute. reflexivity. Qed.

(** ** The further properties on the sample persistence module *)

(** A clock that moves during the [await]s, and no other task at all, leave
    the refs, the database and the timers alone. *)
Lemma env_clock_leaves_refs : leaves_refs env_clock.
Proof. repeat split. Qed.

Lemma env_clock_leaves_db : leaves_db env_clock.
Proof. intros pt w. reflexivity. Qed.

Lemma env_clock_leaves_timers : leaves_timers env_clock.
Proof. intros pt w. reflexivity. Qed.

Lemma env_quiet_leaves_refs : leaves_refs env_quiet.
Proof. repeat split. Qed.

Lemma env_quiet_leaves_timers : leaves_timers env_quiet.
Proof. intros pt w. reflexivity. Qed.

(** A save into a note that was deleted: the editor is cleared and gets the
    placeholder, nothing is written. *)
Lemma save_for_missing_note_resets_editor_witness :
  outcome (saveNote props_default env_clock gone_a world_a) = Returned None
  /\ written (effects (saveNote props_default env_clock gone_a world_a)) = []
  /\ commands_sent (effects (saveNote props_default env_clock gone_a world_a))
     = [ClearContent; ClearTags; SetPlaceholder "Start writing your note"]
  /\ cancelled (effects (saveNote props_default env_clock gone_a world_a)) = ["a"]
  /\ currentNote (world (saveNote props_default env_clock gone_a world_a)) = None
  /\ store_currentEditingNote (world (saveNote props_default env_clock gone_a world_a))
     = PtrNull.
Proof.
  destruct (@save_for_missing_note_resets_editor sample_persistence sample_helpers
              props_default env_clock env_clock_leaves_refs gone_a world_a
              ltac:(vm_compute; reflexivity) ltac:(vm_compute; reflexivity)
              ltac:(vm_compute; reflexivity))
    as (H1 & H2 & H3 & _ & H5 & H6 & _ & _ & _ & _ & H11 & _).
  exact (conj H1 (conj H2 (conj H3 (conj H5 (conj H6 (H11 eq_refl)))))).
Defined.

(** The first save of a new note: it is created as note0, becomes the current
    note, and its stored title goes to the view as the placeholder. *)
Lemma first_save_makes_created_note_current_witness :
  outcome (saveNote props_default env_clock new_draft world_new) = Returned (Some "note0")
  /\ (note_id <$> currentNote (world (saveNote props_default env_clock new_draft world_new)))
     = Some (Some "note0")
  /\ saveCount (world (saveNote props_default env_clock new_draft world_new)) = 1
  /\ created_ids (effects (saveNote props_default env_clock new_draft world_new)) = []
  /\ posted (effects (saveNote props_default env_clock new_draft world_new))
     = [("new_session", EvTitlePlaceholder, Some "Untitled")].
Proof.
  destruct (upsert store0 (build_noteData new_draft (history_token new_draft world_new)))
    as [[oi d] |] eqn:Hadd; [| vm_compute in Hadd; discriminate Hadd].
  assert (oi = Some "note0") as -> by (vm_compute in Hadd; congruence).
  destruct (notes d !! "note0") as [n |] eqn:Hn;
    [| vm_compute in Hadd; inversion Hadd; subst d; vm_compute in Hn; discriminate Hn].
  destruct (@first_save_makes_created_note_current sample_persistence sample_helpers
              props_default env_clock env_clock_leaves_refs new_draft world_new
              "note0" d n ltac:(vm_compute; reflexivity) ltac:(vm_compute; reflexivity)
              Hadd ltac:(discriminate) Hn env_clock_leaves_db)
    as (H1 & _ & H3 & H4 & H5 & H6).
  assert (note_id n = Some "note0" /\ note_title n = "Untitled") as [Hid Ht].
  { vm_compute in Hadd. inversion Hadd; subst d. vm_compute in Hn.
    inversion Hn. split; reflexivity. }
  split; [exact H1 |]. split; [rewrite H3; simpl; now rewrite Hid |].
  split; [exact H4 |]. split; [exact H5 |].
  rewrite H6. simpl. now rewrite Ht.
Defined.

(** A save that renames note a, the first of the session: the counter goes
    from 0 to 1. *)
Lemma save_counter_counts_unfailed_saves_witness :
  saveCount (world (saveNote props_default env_clock rename_a world_a)) = 1.
Proof.
  rewrite (@save_counter_counts_unfailed_saves sample_persistence sample_helpers
             props_default env_clock env_clock_leaves_refs rename_a world_a
             ltac:(vm_compute; reflexivity)).
  vm_compute. reflexivity.
Defined.

(** The database is emptied while the write of note a is awaited: the read
    back fails, the save returns undefined and tells the view nothing. *)
Lemma failed_save_returns_undefined_witness :
  outcome (saveNote props_default env_wipe rename_a world_a) = Returned None
  /\ status_sent (effects (saveNote props_default env_wipe rename_a world_a)) = false
  /\ refresh_sent (effects (saveNote props_default env_wipe rename_a world_a)) = false.
Proof.
  exact (@failed_save_returns_undefined sample_persistence sample_helpers
           props_default env_wipe rename_a world_a ltac:(vm_compute; reflexivity)).
Defined.

(** A change typed into note b while the save of note a is pending: the timer
    of note b is the new one, the timer of note a is still there. *)
Lemma saveContent_debounces_per_note_witness :
  pending_for "b" (timers (world (saveContent "b_session" (typed "<p>b</p>")
                                    world_b_pending_a)))
  = [mkTimer 1 5500
       (JobSave (make_params "b_session" (typed "<p>b</p>") world_b_pending_a)
          "b_session")]
  /\ pending_for "a" (timers (world (saveContent "b_session" (typed "<p>b</p>")
                                       world_b_pending_a)))
     = pending_for "a" (timers world_b_pending_a).
Proof.
  destruct (@saveContent_debounces_per_note sample_persistence
              "b_session" (typed "<p>b</p>") world_b_pending_a
              (withTimer_wf "a" _ 500 0 no_timers no_timers_wf))
    as [Hown Hother].
  split; [exact Hown |].
  apply Hother. vm_compute. intros E. discriminate E.
Defined.

(** A soft reset with note a open in the default editor: the note is
    forgotten, the pointer still names it and no placeholder is sent. *)
Lemma reset_forgets_the_note_witness :
  currentNote (world (reset props_default env_clock false world_a)) = None
  /\ store_currentEditingNote (world (reset props_default env_clock false world_a))
     = PtrNote "a"
  /\ commands_sent (effects (reset props_default env_clock false world_a))
     = [ClearContent; ClearTags].
Proof.
  destruct (@reset_forgets_the_note sample_persistence sample_helpers
              props_default env_clock env_clock_leaves_refs false world_a)
    as (_ & Hnote & _ & _ & _ & _ & _ & _ & Hsoft & _).
  destruct (Hsoft eq_refl) as (Hptr & _ & Hcmd).
  exact (conj Hnote (conj Hptr Hcmd)).
Defined.

(** A new note opened with no note open, the clock at 5000. *)
Lemma new_note_starts_fresh_session_witness :
  sessionHistoryId (world (loadNote props_default env_clock open_new world_new))
  = Some 5000
  /\ sessionIdRef (world (loadNote props_default env_clock open_new world_new))
     = makeSessionId (Some (item_note open_new)) 5000.
Proof.
  destruct (@new_note_starts_fresh_session sample_persistence sample_helpers
              props_default env_clock env_clock_leaves_refs open_new world_new eq_refl)
    as (t & Hsid & Hhist & Ht & _).
  rewrite Hhist, Hsid, (Ht eq_refl). split; reflexivity.
Defined.

(** Note b opened while note a is open. *)
Lemma open_note_loads_under_new_session_witness :
  currentNote (world (loadNote props_default env_clock open_b world_a)) = Some note_b
  /\ store_currentEditingNote (world (loadNote props_default env_clock open_b world_a))
     = PtrNote "b"
  /\ saveCount (world (loadNote props_default env_clock open_b world_a)) = 0.
Proof.
  assert (currentNote world_a ≫= note_id <> note_id (item_note open_b)) as Hother
    by (vm_compute; intros E; discriminate E).
  destruct (@open_note_loads_under_new_session sample_persistence sample_helpers
              props_default env_clock env_clock_leaves_refs open_b world_a eq_refl
              (or_intror Hother) env_clock_leaves_db env_clock_leaves_timers)
    as (t & _ & _ & Hnote & _ & _ & Hptr & _ & Hcount & _).
  exact (conj Hnote (conj (Hptr eq_refl) Hcount)).
Defined.

(** Note a closed before its image download fires. *)
Lemma image_download_after_reset_is_noop_witness :
  effects (run_job props_default env_clock JobLoadImages
             (world (reset props_default env_clock true world_a))) = [].
Proof.
  rewrite (@image_download_after_reset_is_noop sample_persistence sample_helpers
             props_default env_clock env_clock_leaves_refs true world_a).
  reflexivity.
Defined.

(** The app comes back with the blob of note b stored one second ago, on a
    phone. *)
Lemma restore_never_leaves_flag_set_witness :
  isRestoringState
    (state (world (restoreEditorState props_default env_clock
                     (set_mmkv_appState (Some blob_b) world_new)))) = false
  /\ effects (restoreEditorState props_default env_clock
                (set_mmkv_appState (Some blob_b) world_new))
     = [ESendEvent "loadingNote" (PayloadNote note_b); EGoToPage 1;
        ERemoveItem "appState"; ESendEvent "load_overlay" (PayloadText "hide_editor")].
Proof.
  destruct (@restore_never_leaves_flag_set sample_persistence sample_helpers
              props_default env_clock env_clock_leaves_refs
              (set_mmkv_appState (Some blob_b) world_new))
    as (Hflag & _ & Hyes & _).
  destruct (Hyes blob_b note_b eq_refl eq_refl ltac:(vm_compute; reflexivity))
    as (_ & _ & Heff).
  exact (conj Hflag Heff).
Defined.

(** The save into the deleted note, from a preview editor: the pointer of the
    shared store still names note a. *)
Lemma secondary_editor_leaves_editing_pointer_witness :
  store_currentEditingNote (world (saveNote props_preview env_clock gone_a world_a))
  = PtrNote "a".
Proof.
  destruct (@secondary_editor_leaves_editing_pointer sample_persistence sample_helpers
              props_preview env_clock env_clock_leaves_refs gone_a open_b true world_a
              eq_refl)
    as (Hsave & _).
  exact Hsave.
Defined.

(** The first save of the new note in the default editor: the pointer is
    still empty after it, and the one timer it started sets it to note0. *)
Lemma first_save_defers_pointer_update_witness :
  store_currentEditingNote (world (saveNote props_default env_clock new_draft world_new))
  = PtrNull
  /\ (timer_job <$> pending (timers (world (saveNote props_default env_clock
                                              new_draft world_new))))
     = [JobSetCurrentlyEditing (Some "note0")].
Proof.
  destruct (upsert store0 (build_noteData new_draft (history_token new_draft world_new)))
    as [[oi d] |] eqn:Hadd; [| vm_compute in Hadd; discriminate Hadd].
  assert (oi = Some "note0") as -> by (vm_compute in Hadd; congruence).
  destruct (notes d !! "note0") as [n |] eqn:Hn;
    [| vm_compute in Hadd; inversion Hadd; subst d; vm_compute in Hn; discriminate Hn].
  destruct (@first_save_defers_pointer_update sample_persistence sample_helpers
              props_default env_clock env_clock_leaves_refs new_draft world_new
              "note0" d n ltac:(vm_compute; reflexivity) ltac:(vm_compute; reflexivity)
              Hadd ltac:(discriminate) Hn env_clock_leaves_db env_clock_leaves_timers
              eq_refl ltac:(discriminate))
    as (Hptr & (t & Hpend) & _).
  split; [exact Hptr |].
  rewrite Hpend. reflexivity.
Defined.

(** A change typed into note a under history token 1000 and saved after the
    hook moved on to token 2000: the update carries 1000, the hook keeps
    2000. *)
Lemma valid_content_keeps_history_session_witness :
  sessionHistoryId (world (saveNote props_default env_clock rename_a
                             (set_sessionHistoryId (Some 2000) world_a)))
  = Some 2000
  /\ exists nd,
       written (effects (saveNote props_default env_clock rename_a
                           (set_sessionHistoryId (Some 2000) world_a))) = [nd]
       /\ nd_sessionId nd = SessToken 1000.
Proof.
  exact (@valid_content_keeps_history_session sample_persistence sample_helpers
           props_default env_clock env_clock_leaves_refs rename_a
           (set_sessionHistoryId (Some 2000) world_a)
           ltac:(vm_compute; reflexivity) ltac:(vm_compute; reflexivity)).
Defined.
